(** * The [/run] handler of app.py: a sandboxed code-execution endpoint

    The handler validates the submitted source, stages it in a fresh
    temporary directory, runs it with [docker run] under a fixed hardened
    configuration, classifies time-outs, truncates the captured streams and
    removes the staging directory.

    The embedding is shallow.  The handler is a function from the parsed
    request body, the initial host state and the answers of the environment
    (temporary-name generator, container engine) to a result and a final
    host state.  Python exceptions are the [Raised] results; the file system
    is a finite map. *)

From Stdlib Require Import ZArith String Ascii List Lia DecimalString.
From stdpp Require Import base option gmap strings.

Local Open Scope Z_scope.

(** ** Python primitives used by the handler *)

Module Py.

(** [len(s)] *)
Definition len (s : string) : Z := Z.of_nat (String.length s).

(** [str(n)] for an [int]. *)
Definition str (n : Z) : string := NilZero.string_of_int (Z.to_int n).

(** [s[:n]]; a negative bound counts from the end. *)
Definition slice_to (n : Z) (s : string) : string :=
  if n <? 0 then String.substring 0 (Z.to_nat (len s + n)) s
  else String.substring 0 (Z.to_nat n) s.

(** [needle in s] on [str]: some suffix of [s] starts with [needle]. *)
Fixpoint str_in (needle s : string) : bool :=
  String.prefix needle s ||
  match s with
  | EmptyString => false
  | String _ s' => str_in needle s'
  end.

Fixpoint ends_with (c : ascii) (s : string) : bool :=
  match s with
  | EmptyString => false
  | String a EmptyString => Ascii.eqb a c
  | String _ s' => ends_with c s'
  end.

(** [os.path.join(a, b)] on POSIX, two components. *)
Definition path_join (a b : string) : string :=
  if String.prefix "/" b then b
  else if String.eqb a "" || ends_with "/" a then a +:+ b
  else a +:+ "/" +:+ b.

(** [o or ""], for the [Optional[str]] attributes of [CompletedProcess]. *)
Definition or_empty (o : option string) : string :=
  match o with
  | Some s => if String.eqb s "" then "" else s
  | None => ""
  end.

End Py.

(** ** JSON values: request bodies and response payloads *)

#[warnings="-register-all"] Inductive json : Type :=
| JNull
| JBool (b : bool)
| JNum (n : Z)
| JStr (s : string)
| JList (l : list json)
| JDict (d : list (string * json)).

(** Python truth value of a decoded JSON value. *)
Definition truthy (v : json) : bool :=
  match v with
  | JNull => false
  | JBool b => b
  | JNum n => negb (n =? 0)
  | JStr s => negb (String.eqb s "")
  | JList l => match l with [] => false | _ => true end
  | JDict d => match d with [] => false | _ => true end
  end.

(** [a or b] *)
Definition py_or (a b : json) : json := if truthy a then a else b.

(** Key lookup in a decoded object.  The decoder keeps the last binding of a
    repeated key. *)
Fixpoint dict_lookup (k : string) (d : list (string * json)) : option json :=
  match d with
  | [] => None
  | (k', v) :: d' =>
      match dict_lookup k d' with
      | Some w => Some w
      | None => if String.eqb k k' then Some v else None
      end
  end.

Inductive exn : Type :=
| AttributeError
| OSError
| TimeoutExpired.

(** [data.get(k, default)]: only a [dict] has the method. *)
Definition get (data : json) (k : string) (default : json) : exn + json :=
  match data with
  | JDict d => inr (from_option id default (dict_lookup k d))
  | _ => inl AttributeError
  end.

(** ** Configuration constants *)

Definition MAX_CHARS : Z := 5000.
Definition DOCKER_IMAGE : string := "python:3.11-slim".
Definition TIMEOUT_SECONDS : Z := 10.
Definition MEMORY_LIMIT : string := "128m".
Definition READ_ONLY : bool := true.
Definition MAX_OUTPUT : Z := 10000.

(** The marker appended to a truncated stream: a line feed, the text
    [... (truncated)] and a line feed. *)
Definition LF : string := String (ascii_of_nat 10) EmptyString.
Definition TRUNCATION_MARKER : string := LF +:+ "... (truncated)" +:+ LF.

(** ** Host state *)

(** The temporary area is flat: a directory maps entry names to contents. *)
Record world : Type := World {
  disk : gmap string (gmap string string);
  containers : list (list string);
  spawned : list (list string * Z)
}.

(** [containers] are the sandbox instances running on the engine, by their
    command lines; [spawned] logs every external command the service started,
    with the time-out it was given. *)

Definition with_disk (d : gmap string (gmap string string)) (w : world) : world :=
  {| disk := d; containers := containers w; spawned := spawned w |}.

Module Fs.

(** [os.mkdir]-like creation of a directory that must not exist. *)
Definition mkdir (dir : string) (d : gmap string (gmap string string))
  : option (gmap string (gmap string string)) :=
  match d !! dir with
  | Some _ => None
  | None => Some (<[dir := ∅]> d)
  end.

(** [open(join(dir, name), "w").write(content)] *)
Definition write (dir name content : string) (d : gmap string (gmap string string))
  : option (gmap string (gmap string string)) :=
  match d !! dir with
  | Some entries => Some (<[dir := <[name := content]> entries]> d)
  | None => None
  end.

(** [os.remove(join(dir, name))] *)
Definition remove (dir name : string) (d : gmap string (gmap string string))
  : option (gmap string (gmap string string)) :=
  match d !! dir with
  | Some entries =>
      match entries !! name with
      | Some _ => Some (<[dir := delete name entries]> d)
      | None => None
      end
  | None => None
  end.

(** [os.rmdir(dir)]: the directory must exist and be empty. *)
Definition rmdir (dir : string) (d : gmap string (gmap string string))
  : option (gmap string (gmap string string)) :=
  match d !! dir with
  | Some entries => if bool_decide (entries = ∅) then Some (delete dir d) else None
  | None => None
  end.

Definition exists_dir (dir : string) (d : gmap string (gmap string string)) : bool :=
  bool_decide (is_Some (d !! dir)).

Definition exists_file (dir name : string) (d : gmap string (gmap string string)) : bool :=
  match d !! dir with
  | Some entries => bool_decide (is_Some (entries !! name))
  | None => false
  end.

End Fs.

(** ** The environment of one request *)

(** What the sandboxed program did to the host through the writable bind
    mount. *)
Inductive host_op : Type :=
| HostWrite (dir name content : string)
| HostUnlink (dir name : string).

Definition apply_op (o : host_op) (d : gmap string (gmap string string))
  : gmap string (gmap string string) :=
  match o with
  | HostWrite dir name content => from_option id d (Fs.write dir name content d)
  | HostUnlink dir name => from_option id d (Fs.remove dir name d)
  end.

Definition apply_ops (ops : list host_op) (d : gmap string (gmap string string))
  : gmap string (gmap string string) :=
  fold_left (fun acc o => apply_op o acc) ops d.

(** How the [docker run] invocation ends.
    - [ExecFailed]: the [docker] executable cannot be started.
    - [EngineFailed rc diag]: the docker client exits by itself with status
      [rc] and its own diagnostic on stderr (engine unreachable, image
      missing, malformed invocation); the submitted program never ran.
    - [ContainerExited rc out err ops]: the container ran and exited.
    - [Hung started ops]: nothing exits before the supervisory time-out;
      [started] tells whether a container was already running. *)
Inductive docker_event : Type :=
| ExecFailed
| EngineFailed (rc : Z) (diag : string)
| ContainerExited (rc : Z) (out err : string) (ops : list host_op)
| Hung (started : bool) (ops : list host_op).

Record environment : Type := Environment {
  tempdir : string;
  uuid4 : string;
  random_name : string;
  engine : docker_event
}.

(** [tempdir] is [tempfile.gettempdir()], [uuid4] is [str(uuid.uuid4())],
    [random_name] the random characters [mkdtemp] appends. *)

Record CompletedProcess : Type := Completed {
  returncode : Z;
  proc_stdout : option string;
  proc_stderr : option string
}.

(** [subprocess.run(argv, capture_output=True, text=True, timeout=t)].
    On expiry [subprocess.run] kills the child it started, which is the docker
    client; a container the engine already started is a separate process of
    the engine and stays in [containers]. *)
Definition subprocess_run (argv : list string) (t : Z) (ev : docker_event) (w : world)
  : (exn + CompletedProcess) * world :=
  let w := {| disk := disk w; containers := containers w;
              spawned := spawned w ++ [(argv, t)] |} in
  match ev with
  | ExecFailed => (inl OSError, w)
  | EngineFailed rc diag =>
      (inr {| returncode := rc; proc_stdout := Some ""; proc_stderr := Some diag |}, w)
  | ContainerExited rc out err ops =>
      (inr {| returncode := rc; proc_stdout := Some out; proc_stderr := Some err |},
       with_disk (apply_ops ops (disk w)) w)
  | Hung started ops =>
      (inl TimeoutExpired,
       {| disk := apply_ops ops (disk w);
          containers := if started then containers w ++ [argv] else containers w;
          spawned := spawned w |})
  end.

(** ** The handler *)

Record response : Type := Response {
  body : json;
  status : Z
}.

Inductive result : Type :=
| Returned (r : response)
| Raised (e : exn).

(** [jsonify(d), code] *)
Definition jsonify (d : list (string * json)) (code : Z) : response :=
  {| body := JDict d; status := code |}.

(** Status line the framework sends: an uncaught exception is a 500. *)
Definition http_status (r : result) : Z :=
  match r with
  | Returned resp => status resp
  | Raised _ => 500
  end.

Definition timeout_message : string :=
  "Execution timed out after " +:+ Py.str TIMEOUT_SECONDS +:+ " seconds.".

Definition timeout_response : response :=
  jsonify [("error", JStr timeout_message)] 200.

(** [tempfile.mkdtemp(prefix=p)] *)
Definition mkdtemp (prefix : string) (env : environment) (w : world)
  : option (string * world) :=
  let dir := Py.path_join (tempdir env) (prefix +:+ random_name env) in
  match Fs.mkdir dir (disk w) with
  | Some d => Some (dir, with_disk d w)
  | None => None
  end.

(** The argument vector assembled in [docker_cmd]. *)
Definition docker_cmd (script_path workdir : string) : list string :=
  let cmd := ["docker"; "run"; "--rm";
              "--network"; "none";
              "--memory"; MEMORY_LIMIT;
              "--pids-limit"; "64";
              "--cpus"; "0.5"] in
  let cmd := if READ_ONLY then cmd ++ ["--read-only"] else cmd in
  let cmd := cmd ++ ["-v"; script_path +:+ ":/app/script.py:ro";
                     "-v"; workdir +:+ ":/app/writable"] in
  cmd ++ [DOCKER_IMAGE; "timeout"; Py.str TIMEOUT_SECONDS; "python"; "-u"; "/app/script.py"].

(** [s[:MAX_OUTPUT] + marker] when [len(s) > MAX_OUTPUT]. *)
Definition cap_output (s : string) : string :=
  if Py.len s >? MAX_OUTPUT then Py.slice_to MAX_OUTPUT s +:+ TRUNCATION_MARKER else s.

(** The condition of the time-out normalisation. *)
Definition timed_out (return_code : Z) (stderr : string) : bool :=
  (return_code =? 124) || Py.str_in "Command terminated" stderr.

(** The final [try: os.remove; os.rmdir / except Exception: pass]. *)
Definition cleanup (workdir : string) (d : gmap string (gmap string string))
  : gmap string (gmap string string) :=
  match Fs.remove workdir "script.py" d with
  | Some d1 =>
      match Fs.rmdir workdir d1 with
      | Some d2 => d2
      | None => d1
      end
  | None => d
  end.

(** The handler after [subprocess.run]: time-out classification, truncation,
    response and clean-up. *)
Definition respond (workdir : string) (r : exn + CompletedProcess) (w : world)
  : result * world :=
  match r with
  | inl TimeoutExpired => (Returned timeout_response, w)
  | inl e => (Raised e, w)
  | inr proc =>
  let stdout := Py.or_empty (proc_stdout proc) in
  let stderr := Py.or_empty (proc_stderr proc) in
  let return_code := returncode proc in
  if timed_out return_code stderr then (Returned timeout_response, w)
  else
    let stdout := cap_output stdout in
    let stderr := cap_output stderr in
    let resp := [("stdout", JStr stdout);
                 ("stderr", JStr stderr);
                 ("exit_code", JNum return_code)] in
    let w := with_disk (cleanup workdir (disk w)) w in
    (Returned (jsonify resp 200), w)
  end.

(** The handler from the creation of the temporary directory on, for a
    source text that passed the checks. *)
Definition run_accepted (env : environment) (code : string) (w : world) : result * world :=
  let run_id := Py.slice_to 8 (uuid4 env) in
  match mkdtemp ("exec_" +:+ run_id +:+ "_") env w with
  | None => (Raised OSError, w)
  | Some (workdir, w) =>
  let script_path := Py.path_join workdir "script.py" in
  match Fs.write workdir "script.py" code (disk w) with
  | None => (Raised OSError, w)
  | Some d =>
  let w := with_disk d w in
  let '(r, w) := subprocess_run (docker_cmd script_path workdir) (TIMEOUT_SECONDS + 2)
                                (engine env) w in
  respond workdir r w
  end end.

(** [run_code], applied to the decoded request body. *)
Definition run_code (env : environment) (request_json : json) (w : world) : result * world :=
  let data := py_or request_json (JDict []) in
  match get data "code" (JStr "") with
  | inl e => (Raised e, w)
  | inr code =>
  match code with
  | JStr code =>
      if Py.len code =? 0 then
        (Returned (jsonify [("error", JStr "No code provided.")] 400), w)
      else if Py.len code >? MAX_CHARS then
        (Returned (jsonify [("error", JStr ("Code too long. Max " +:+ Py.str MAX_CHARS
                                             +:+ " characters allowed."))] 400), w)
      else run_accepted env code w
  | _ => (Returned (jsonify [("error", JStr "Field 'code' must be a string.")] 400), w)
  end end.

(** ** Vocabulary of the statements *)

(** [needle] occurs in [s]. *)
Definition occurs (needle s : string) : Prop :=
  exists pre post, s = pre +:+ needle +:+ post.

(** The request is one the handler runs: its body is an object whose
    ['code'] is a non-empty string of at most [MAX_CHARS] characters. *)
Definition accepted (request_json : json) (code : string) : Prop :=
  get (py_or request_json (JDict [])) "code" (JStr "") = inr (JStr code)
  /\ 0 < Py.len code <= MAX_CHARS.

(** The staging directory of a request and the path of its source file. *)
Definition workdir_of (env : environment) : string :=
  Py.path_join (tempdir env)
    (("exec_" +:+ Py.slice_to 8 (uuid4 env) +:+ "_") +:+ random_name env).

Definition script_path_of (env : environment) : string :=
  Py.path_join (workdir_of env) "script.py".

(** [mkdtemp] finds its name free. *)
Definition fresh (env : environment) (w : world) : Prop :=
  disk w !! workdir_of env = None.

(** The invocation came back as a completed process with this exit status
    and these captured streams. *)
Definition completes (ev : docker_event) (rc : Z) (out err : string) : Prop :=
  match ev with
  | EngineFailed rc' diag => rc' = rc /\ out = "" /\ diag = err
  | ContainerExited rc' out' err' _ => rc' = rc /\ out' = out /\ err' = err
  | ExecFailed | Hung _ _ => False
  end.

(** The wrapper's time-out signal: its exit status or its diagnostic. *)
Definition inner_marker (rc : Z) (err : string) : Prop :=
  rc = 124 \/ occurs "Command terminated" err.

(** The run ended in one of the time-outs the handler recognises. *)
Definition is_timeout (ev : docker_event) : Prop :=
  (exists started ops, ev = Hung started ops)
  \/ (exists rc out err, completes ev rc out err /\ inner_marker rc err).

(** A captured stream [s] and what the response carries for it. *)
Definition capped (s r : string) : Prop :=
  (MAX_OUTPUT < Py.len s ->
     exists keep rest,
       s = keep +:+ rest /\ Py.len keep = 10000
       /\ r = keep +:+ TRUNCATION_MARKER
       /\ Py.len r = 10000 + Py.len TRUNCATION_MARKER)
  /\ (Py.len s <= MAX_OUTPUT -> r = s).

Definition with_engine (ev : docker_event) (env : environment) : environment :=
  {| tempdir := tempdir env; uuid4 := uuid4 env;
     random_name := random_name env; engine := ev |}.

(** The host state just before [docker run]: the directory holds the source. *)
Definition staged (env : environment) (code : string) (w : world) : world :=
  with_disk (<[workdir_of env := {["script.py" := code]}]> (disk w)) w.

(** The one command line the handler builds for a request. *)
Definition command_of (env : environment) : list string :=
  docker_cmd (script_path_of env) (workdir_of env).

(** Sample inputs. *)
Definition env0 (ev : docker_event) : environment :=
  {| tempdir := "/tmp";
     uuid4 := "3f2b8c1e-7a4d-4e0b-9c55-0d6a1b2c3d4e";
     random_name := "k3j9x_qa";
     engine := ev |}.

Definition world0 : world := {| disk := ∅; containers := []; spawned := [] |}.

Definition request_of (code : string) : json := JDict [("code", JStr code)].

(** A field of the JSON object a result carries. *)
Definition field (k : string) (r : result) : option json :=
  match r with
  | Returned {| body := JDict d |} => dict_lookup k d
  | _ => None
  end.

(** The three-field result object: two strings and an integer or null. *)
Definition result_shape (r : result) : Prop :=
  exists so se ec,
    r = Returned (jsonify [("stdout", JStr so); ("stderr", JStr se); ("exit_code", ec)] 200)
    /\ (ec = JNull \/ exists n, ec = JNum n).

(** More sample inputs: a program that ignores the wrapper's signal, a stream
    longer than the ceiling, a source longer than the limit, and the
    diagnostic of an unreachable engine. *)
Definition stubborn_loop : string :=
  "import signal" +:+ LF +:+
  "signal.signal(signal.SIGTERM, signal.SIG_IGN)" +:+ LF +:+
  "while True: pass".

Definition long_text : string := string_of_list_ascii (repeat "a"%char (Z.to_nat 10050)).

Definition long_source : string := string_of_list_ascii (repeat "#"%char (Z.to_nat 5001)).

Definition daemon_down : string :=
  "docker: Cannot connect to the Docker daemon at unix:///var/run/docker.sock.".

(** The host directory an operation of the sandboxed program touches, and
    the operations an engine answer carries. *)
Definition op_dir (o : host_op) : string :=
  match o with
  | HostWrite dir _ _ => dir
  | HostUnlink dir _ => dir
  end.

Definition event_ops (ev : docker_event) : list host_op :=
  match ev with
  | ContainerExited _ _ _ ops => ops
  | Hung _ ops => ops
  | ExecFailed | EngineFailed _ _ => []
  end.

(** A source text of exactly [MAX_CHARS] characters. *)
Definition limit_source : string :=
  string_of_list_ascii (repeat "#"%char (Z.to_nat MAX_CHARS)).

(** * Properties *)

(** ** Strings *)

Section Strings.

Implicit Types s t p : string.

Lemma append_nil_l s : "" +:+ s = s.
Proof. reflexivity. Qed.

Lemma append_cons c s t : String c s +:+ t = String c (s +:+ t).
Proof. reflexivity. Qed.

Lemma append_nil_r s : s +:+ "" = s.
Proof.
  induction s as [|c s IH]; [reflexivity|].
  now rewrite append_cons, IH.
Qed.

Lemma append_assoc s t p : (s +:+ t) +:+ p = s +:+ (t +:+ p).
Proof.
  induction s as [|c s IH]; [reflexivity|].
  now rewrite !append_cons, IH.
Qed.

Lemma length_append s t :
  String.length (s +:+ t) = (String.length s + String.length t)%nat.
Proof.
  induction s as [|c s IH]; [reflexivity|].
  rewrite append_cons. simpl. now rewrite IH.
Qed.

Lemma len_append s t : Py.len (s +:+ t) = Py.len s + Py.len t.
Proof. unfold Py.len. rewrite length_append. lia. Qed.

Lemma len_nonneg s : 0 <= Py.len s.
Proof. unfold Py.len. lia. Qed.

(** [substring 0 k] is the prefix of length [k], when there is one. *)
Lemma take_split k : forall s,
  (k <= String.length s)%nat ->
  exists rest, s = String.substring 0 k s +:+ rest
               /\ String.length (String.substring 0 k s) = k.
Proof.
  induction k as [|k IH]; intros s Hk.
  - exists s. destruct s; simpl; split; reflexivity.
  - destruct s as [|c s]; simpl in Hk; [lia|].
    destruct (IH s) as [rest [Hs Hl]]; [lia|].
    exists rest. simpl. rewrite append_cons, <- Hs, Hl. split; reflexivity.
Qed.

Lemma take_all k : forall s,
  (String.length s <= k)%nat -> String.substring 0 k s = s.
Proof.
  induction k as [|k IH]; intros [|c s] Hk; simpl in *; try reflexivity; try lia.
  rewrite IH; [reflexivity | lia].
Qed.

Lemma prefix_spec p : forall s,
  String.prefix p s = true <-> exists t, s = p +:+ t.
Proof.
  induction p as [|a p IH]; intros s.
  - split; [intros _; exists s; reflexivity | intros _; now destruct s].
  - destruct s as [|b s]; simpl.
    + split; [discriminate | intros [t Ht]; rewrite append_cons in Ht; discriminate].
    + destruct (ascii_dec a b) as [->|Hab].
      * rewrite IH. split; intros [t Ht]; exists t; rewrite append_cons in *; congruence.
      * split; [discriminate | intros [t Ht]; rewrite append_cons in Ht; congruence].
Qed.

(** The [in] test of Python decides occurrence. *)
Lemma str_in_spec p : forall s, Py.str_in p s = true <-> occurs p s.
Proof.
  unfold occurs. induction s as [|c s IH].
  - cbn [Py.str_in]. rewrite orb_false_r, prefix_spec. split.
    + intros [t Ht]. exists "", t. exact Ht.
    + intros [[|a pre] [post H]]; [exists post; exact H|].
      rewrite append_cons in H. discriminate.
  - cbn [Py.str_in]. rewrite orb_true_iff, IH, prefix_spec. split.
    + intros [[t Ht] | [pre [post H]]].
      * exists "", t. exact Ht.
      * exists (String c pre), post. now rewrite append_cons, H.
    + intros [[|a pre] [post H]].
      * left. exists post. exact H.
      * right. exists pre, post. rewrite append_cons in H. congruence.
Qed.

Lemma str_in_false p s : Py.str_in p s = false <-> ~ occurs p s.
Proof. rewrite <- str_in_spec. destruct (Py.str_in p s); split; congruence. Qed.

Lemma or_empty_Some s : Py.or_empty (Some s) = s.
Proof. simpl. destruct (String.eqb_spec s ""); congruence. Qed.

End Strings.

(** ** Truncation *)

Lemma cap_output_long s :
  MAX_OUTPUT < Py.len s ->
  exists keep rest,
    s = keep +:+ rest /\ Py.len keep = 10000
    /\ cap_output s = keep +:+ TRUNCATION_MARKER.
Proof.
  intros Hlong. unfold cap_output.
  destruct (Z.gtb_spec (Py.len s) MAX_OUTPUT) as [_|?]; [|lia].
  unfold Py.slice_to. change (MAX_OUTPUT <? 0) with false. cbv iota.
  destruct (take_split (Z.to_nat MAX_OUTPUT) s) as [rest [Hs Hl]].
  { unfold Py.len in Hlong. lia. }
  exists (String.substring 0 (Z.to_nat MAX_OUTPUT) s), rest.
  split; [exact Hs|]. split; [|reflexivity].
  unfold Py.len. rewrite Hl. reflexivity.
Qed.

Lemma cap_output_short s : Py.len s <= MAX_OUTPUT -> cap_output s = s.
Proof.
  intros Hshort. unfold cap_output.
  destruct (Z.gtb_spec (Py.len s) MAX_OUTPUT); [lia | reflexivity].
Qed.

Lemma cap_output_capped s : capped s (cap_output s).
Proof.
  split.
  - intros Hlong. destruct (cap_output_long s Hlong) as [keep [rest [Hs [Hk Hc]]]].
    exists keep, rest. repeat split; try assumption.
    rewrite Hc, len_append, Hk. reflexivity.
  - apply cap_output_short.
Qed.

(** ** The handler, step by step *)

Section Handler.

Variable env : environment.
Variable w : world.

Lemma run_code_accepted request_json code :
  accepted request_json code ->
  run_code env request_json w = run_accepted env code w.
Proof.
  intros [Hget [Hpos Hmax]]. unfold run_code. rewrite Hget.
  destruct (Z.eqb_spec (Py.len code) 0) as [?|_]; [lia|].
  destruct (Z.gtb_spec (Py.len code) MAX_CHARS) as [?|_]; [lia|].
  reflexivity.
Qed.

Lemma mkdtemp_fresh :
  fresh env w ->
  mkdtemp ("exec_" +:+ Py.slice_to 8 (uuid4 env) +:+ "_") env w
  = Some (workdir_of env, with_disk (<[workdir_of env := ∅]> (disk w)) w).
Proof.
  intros Hfresh. unfold mkdtemp, Fs.mkdir. fold (workdir_of env).
  now rewrite Hfresh.
Qed.

(** With a free name, creation and the write succeed and the handler reaches
    [docker run] on the staged state. *)
Lemma run_accepted_fresh code :
  fresh env w ->
  run_accepted env code w
  = let '(r, w') := subprocess_run (command_of env) (TIMEOUT_SECONDS + 2)
                                   (engine env) (staged env code w) in
    respond (workdir_of env) r w'.
Proof.
  intros Hfresh. unfold run_accepted. rewrite (mkdtemp_fresh Hfresh).
  unfold Fs.write, staged, with_disk. cbn [disk containers spawned].
  rewrite lookup_insert_eq, insert_insert_eq, insert_empty.
  reflexivity.
Qed.

Lemma run_code_fresh request_json code :
  accepted request_json code -> fresh env w ->
  run_code env request_json w
  = let '(r, w') := subprocess_run (command_of env) (TIMEOUT_SECONDS + 2)
                                   (engine env) (staged env code w) in
    respond (workdir_of env) r w'.
Proof.
  intros Hacc Hfresh.
  now rewrite (run_code_accepted _ _ Hacc), (run_accepted_fresh _ Hfresh).
Qed.

End Handler.

(** [subprocess.run] hands a completed run over as it is. *)
Lemma subprocess_run_completes argv t ev w rc out err :
  completes ev rc out err ->
  fst (subprocess_run argv t ev w)
  = inr {| returncode := rc; proc_stdout := Some out; proc_stderr := Some err |}.
Proof.
  destruct ev as [|rc' diag|rc' out' err' ops|started ops]; simpl; try tauto.
  - intros [-> [-> ->]]. reflexivity.
  - intros [-> [-> ->]]. reflexivity.
Qed.

(** Every invocation is logged once, with its time-out. *)
Lemma subprocess_run_spawned argv t ev w :
  spawned (snd (subprocess_run argv t ev w)) = spawned w ++ [(argv, t)].
Proof. destruct ev as [| | |[|] ?]; reflexivity. Qed.

Lemma respond_spawned workdir r w :
  spawned (snd (respond workdir r w)) = spawned w.
Proof.
  destruct r as [[| |]|proc]; simpl; try reflexivity.
  destruct (timed_out _ _); reflexivity.
Qed.

Lemma timed_out_spec rc err : timed_out rc err = true <-> inner_marker rc err.
Proof.
  unfold timed_out, inner_marker.
  rewrite orb_true_iff, Z.eqb_eq, str_in_spec. reflexivity.
Qed.

Lemma timed_out_false rc err : timed_out rc err = false <-> ~ inner_marker rc err.
Proof. rewrite <- timed_out_spec. destruct (timed_out rc err); split; congruence. Qed.

Lemma respond_marker workdir rc out err w :
  inner_marker rc err ->
  respond workdir
    (inr {| returncode := rc; proc_stdout := Some out; proc_stderr := Some err |}) w
  = (Returned timeout_response, w).
Proof.
  intros Hm. apply timed_out_spec in Hm.
  unfold respond. cbn [returncode proc_stdout proc_stderr].
  now rewrite !or_empty_Some, Hm.
Qed.

Lemma respond_normal workdir rc out err w :
  ~ inner_marker rc err ->
  respond workdir
    (inr {| returncode := rc; proc_stdout := Some out; proc_stderr := Some err |}) w
  = (Returned (jsonify [("stdout", JStr (cap_output out));
                        ("stderr", JStr (cap_output err));
                        ("exit_code", JNum rc)] 200),
     with_disk (cleanup workdir (disk w)) w).
Proof.
  intros Hm. apply timed_out_false in Hm.
  unfold respond. cbn [returncode proc_stdout proc_stderr].
  now rewrite !or_empty_Some, Hm.
Qed.

(** The response of an accepted request whose invocation completed. *)
Lemma run_code_completes env request_json code w rc out err :
  accepted request_json code -> fresh env w ->
  completes (engine env) rc out err ->
  fst (run_code env request_json w)
  = fst (respond (workdir_of env)
           (inr {| returncode := rc; proc_stdout := Some out; proc_stderr := Some err |})
           w).
Proof.
  intros Hacc Hfresh Hc. rewrite (run_code_fresh _ _ _ _ Hacc Hfresh).
  pose proof (subprocess_run_completes (command_of env) (TIMEOUT_SECONDS + 2)
                _ (staged env code w) _ _ _ Hc) as Hrun.
  destruct (subprocess_run _ _ _ _) as [r w']. simpl in Hrun. subst r.
  unfold respond. destruct (timed_out _ _); reflexivity.
Qed.

Lemma run_code_hung env request_json code w started ops :
  accepted request_json code -> fresh env w ->
  engine env = Hung started ops ->
  fst (run_code env request_json w) = Returned timeout_response.
Proof.
  intros Hacc Hfresh Hev. rewrite (run_code_fresh _ _ _ _ Hacc Hfresh), Hev.
  reflexivity.
Qed.

Lemma run_code_spawned env request_json code w :
  accepted request_json code -> fresh env w ->
  spawned (snd (run_code env request_json w))
  = spawned w ++ [(command_of env, TIMEOUT_SECONDS + 2)].
Proof.
  intros Hacc Hfresh. rewrite (run_code_fresh _ _ _ _ Hacc Hfresh).
  pose proof (subprocess_run_spawned (command_of env) (TIMEOUT_SECONDS + 2)
                (engine env) (staged env code w)) as Hlog.
  destruct (subprocess_run _ _ _ _) as [r w'].
  rewrite respond_spawned. exact Hlog.
Qed.

(** ** The workspace *)

Lemma cleanup_staged workdir code (d : gmap string (gmap string string)) :
  d !! workdir = None ->
  cleanup workdir (<[workdir := {["script.py" := code]}]> d) = d.
Proof.
  intros Hfree. unfold cleanup, Fs.remove.
  rewrite lookup_insert_eq, lookup_singleton_eq, delete_singleton_eq, insert_insert_eq.
  unfold Fs.rmdir. rewrite lookup_insert_eq, bool_decide_eq_true_2 by reflexivity.
  now rewrite delete_insert_eq, delete_id.
Qed.

(** On the normal path, when the program left the directory as it was, the
    host disk is back to its state before the request. *)
Lemma normal_completion_cleans_up env request_json code w rc out err :
  accepted request_json code -> fresh env w ->
  engine env = ContainerExited rc out err [] -> ~ inner_marker rc err ->
  disk (snd (run_code env request_json w)) = disk w.
Proof.
  intros Hacc Hfresh Hev Hm.
  rewrite (run_code_fresh _ _ _ _ Hacc Hfresh), Hev.
  cbn [subprocess_run apply_ops fold_left].
  rewrite respond_normal by exact Hm.
  cbn [snd with_disk disk staged]. now apply cleanup_staged.
Qed.

(** The directory is also the writable mount: an entry the program leaves
    there makes [os.rmdir] fail, the failure is swallowed, and the directory
    stays behind without its source file. *)
Example scratch_file_blocks_rmdir :
  let workdir := "/tmp/exec_3f2b8c1e_k3j9x_qa" in
  let final := run_code (env0 (ContainerExited 0 "" "" [HostWrite workdir "out.txt" "x"]))
                 (request_of "open('/app/writable/out.txt', 'w').write('x')") world0 in
  http_status (fst final) = 200
  /\ Fs.exists_dir workdir (disk (snd final)) = true
  /\ Fs.exists_file workdir "script.py" (disk (snd final)) = false
  /\ Fs.exists_file workdir "out.txt" (disk (snd final)) = true.
Proof. vm_compute. repeat split. Qed.

(** On both time-out returns nothing is removed. *)
Lemma timeout_keeps_workspace env request_json code w :
  accepted request_json code -> fresh env w ->
  (exists rc out err, engine env = ContainerExited rc out err [] /\ inner_marker rc err)
  \/ (exists started, engine env = Hung started []) ->
  disk (snd (run_code env request_json w))
  = <[workdir_of env := {["script.py" := code]}]> (disk w).
Proof.
  intros Hacc Hfresh Hev.
  rewrite (run_code_fresh _ _ _ _ Hacc Hfresh).
  destruct Hev as [[rc [out [err [-> Hm]]]] | [started ->]].
  - cbn [subprocess_run apply_ops fold_left].
    rewrite respond_marker by exact Hm. reflexivity.
  - reflexivity.
Qed.

(** C1: the workspace directory and the source file are gone when the
    handler returns, on every exit path.  The handler removes them only on
    the normal path.  Here it is evaluated on a request whose source is an
    endless loop, once with the wrapper's exit status 124 and once with the
    supervisory time-out: both runs return the time-out response and leave
    the directory and its file [script.py] on disk. *)
Theorem workspace_survives_timeout :
  let request := request_of "while True: pass" in
  let inner := run_code (env0 (ContainerExited 124 "" "" [])) request world0 in
  let outer := run_code (env0 (Hung false [])) request world0 in
  let workdir := "/tmp/exec_3f2b8c1e_k3j9x_qa" in
  (fst inner = Returned timeout_response
   /\ Fs.exists_dir workdir (disk (snd inner)) = true
   /\ Fs.exists_file workdir "script.py" (disk (snd inner)) = true)
  /\ (fst outer = Returned timeout_response
      /\ Fs.exists_dir workdir (disk (snd outer)) = true
      /\ Fs.exists_file workdir "script.py" (disk (snd outer)) = true).
Proof. vm_compute. repeat split. Qed.

(** ** Time-outs *)

Lemma command_of_wrapper env :
  exists pre,
    command_of env
    = pre ++ [DOCKER_IMAGE; "timeout"; Py.str TIMEOUT_SECONDS;
              "python"; "-u"; "/app/script.py"].
Proof. unfold command_of, docker_cmd. eexists. reflexivity. Qed.

Lemma run_code_timeout env request_json code w :
  accepted request_json code -> fresh env w -> is_timeout (engine env) ->
  fst (run_code env request_json w) = Returned timeout_response.
Proof.
  intros Hacc Hfresh [[started [ops Hev]] | [rc [out [err [Hc Hm]]]]].
  - exact (run_code_hung _ _ _ _ _ _ Hacc Hfresh Hev).
  - rewrite (run_code_completes _ _ _ _ _ _ _ Hacc Hfresh Hc).
    now rewrite respond_marker.
Qed.

(** C2: every time-out of an accepted request, the supervisory one
    ([subprocess.TimeoutExpired]) or the wrapper's marker (exit status 124 or
    the text [Command terminated] on stderr), is answered with status 200 and
    the one-field object whose message names [TIMEOUT_SECONDS], the number
    handed to the in-sandbox [timeout] wrapper; it is never an exception. *)
Theorem timeout_reported_as_success env request_json code w :
  accepted request_json code -> fresh env w -> is_timeout (engine env) ->
  let r := fst (run_code env request_json w) in
  r = Returned
        {| body := JDict [("error", JStr ("Execution timed out after "
                                          +:+ Py.str TIMEOUT_SECONDS +:+ " seconds."))];
           status := 200 |}
  /\ http_status r = 200
  /\ field "error" r = Some (JStr "Execution timed out after 10 seconds.")
  /\ exists pre,
       command_of env
       = pre ++ [DOCKER_IMAGE; "timeout"; Py.str TIMEOUT_SECONDS;
                 "python"; "-u"; "/app/script.py"].
Proof.
  intros Hacc Hfresh Ht. cbv zeta.
  rewrite (run_code_timeout _ _ _ _ Hacc Hfresh Ht).
  repeat split. apply command_of_wrapper.
Qed.

Lemma accepted_request_of code :
  0 < Py.len code <= MAX_CHARS -> accepted (request_of code) code.
Proof. intros Hlen. split; [reflexivity | exact Hlen]. Qed.

Lemma timeout_reported_as_success_witness :
  let r := fst (run_code (env0 (ContainerExited 0 "" "Command terminated" []))
                  (request_of "print(1)") world0) in
  r = Returned
        {| body := JDict [("error", JStr ("Execution timed out after "
                                          +:+ Py.str TIMEOUT_SECONDS +:+ " seconds."))];
           status := 200 |}
  /\ http_status r = 200
  /\ field "error" r = Some (JStr "Execution timed out after 10 seconds.")
  /\ exists pre,
       command_of (env0 (ContainerExited 0 "" "Command terminated" []))
       = pre ++ [DOCKER_IMAGE; "timeout"; Py.str TIMEOUT_SECONDS;
                 "python"; "-u"; "/app/script.py"].
Proof.
  apply (timeout_reported_as_success
           (env0 (ContainerExited 0 "" "Command terminated" []))
           (request_of "print(1)") "print(1)" world0).
  - apply accepted_request_of. vm_compute. split; [reflexivity | discriminate].
  - reflexivity.
  - right. exists 0, "", "Command terminated". split.
    + simpl. auto.
    + right. exists "", "". reflexivity.
Defined.

(** With a container already running when the supervisory time-out expires,
    the handler returns and the container is still among the running ones. *)
Lemma hung_leaves_container env request_json code w ops :
  accepted request_json code -> fresh env w ->
  engine env = Hung true ops ->
  containers (snd (run_code env request_json w)) = containers w ++ [command_of env].
Proof.
  intros Hacc Hfresh Hev.
  rewrite (run_code_fresh _ _ _ _ Hacc Hfresh), Hev. reflexivity.
Qed.

(** C3: when the supervisory time-out fires, the spawned container is
    terminated before the handler returns.  The handler only returns the
    time-out response: for a program that ignores the wrapper's signal and
    loops, the one command ever started is the [docker run] itself, nothing
    stops the container, and it is still running in the final state. *)
Theorem container_outlives_outer_timeout :
  let env := env0 (Hung true []) in
  let final := run_code env (request_of stubborn_loop) world0 in
  fst final = Returned timeout_response
  /\ spawned (snd final) = [(command_of env, 12)]
  /\ containers (snd final) = [command_of env].
Proof. vm_compute. repeat split. Qed.

(** ** Output ceiling *)

(** A run classified as a time-out answers no stream at all: with exit
    status 124 and 10050 characters captured on stdout, the response is the
    time-out object, without a [stdout] field, and so not the first 10000
    characters followed by the marker. *)
Lemma timed_out_run_answers_no_stream :
  let request := request_of "print('a' * 10050, end=''); import time; time.sleep(60)" in
  let env := env0 (ContainerExited 124 long_text "" []) in
  let r := fst (run_code env request world0) in
  accepted request "print('a' * 10050, end=''); import time; time.sleep(60)"
  /\ fresh env world0
  /\ completes (engine env) 124 long_text ""
  /\ MAX_OUTPUT < Py.len long_text
  /\ r = Returned timeout_response
  /\ field "stdout" r = None /\ field "stderr" r = None
  /\ ~ (exists so, field "stdout" r = Some (JStr so) /\ capped long_text so).
Proof.
  cbv zeta. split; [|split; [|split; [|split]]].
  - apply accepted_request_of. vm_compute. split; [reflexivity | discriminate].
  - reflexivity.
  - simpl. auto.
  - vm_compute. reflexivity.
  - assert (Hr : fst (run_code (env0 (ContainerExited 124 long_text "" []))
                        (request_of "print('a' * 10050, end=''); import time; time.sleep(60)")
                        world0)
                 = Returned timeout_response) by (vm_compute; reflexivity).
    rewrite Hr. repeat split.
    intros [so [Hso _]]. discriminate Hso.
Qed.

(** C4, as the handler has it: on a run that completed and is not
    classified as a time-out, each stream on its own: a captured text longer
    than 10000 characters is answered as its first 10000 characters followed
    by the truncation marker, 10017 characters in all however long the text
    was; a text within the ceiling is answered unchanged; what is answered
    for one stream is a function of that stream alone. *)
Theorem streams_capped_independently env request_json code w rc out err :
  accepted request_json code -> fresh env w ->
  completes (engine env) rc out err -> ~ inner_marker rc err ->
  fst (run_code env request_json w)
  = Returned (jsonify [("stdout", JStr (cap_output out));
                       ("stderr", JStr (cap_output err));
                       ("exit_code", JNum rc)] 200)
  /\ capped out (cap_output out)
  /\ capped err (cap_output err)
  /\ Py.len TRUNCATION_MARKER = 17.
Proof.
  intros Hacc Hfresh Hc Hm.
  rewrite (run_code_completes _ _ _ _ _ _ _ Hacc Hfresh Hc).
  rewrite respond_normal by exact Hm.
  repeat split; try apply cap_output_capped.
Qed.

Lemma no_marker_in_empty : ~ inner_marker 0 "".
Proof.
  intros [H | H]; [discriminate|].
  apply str_in_spec in H. discriminate.
Qed.

Lemma streams_capped_independently_witness :
  fst (run_code (env0 (ContainerExited 0 long_text "" []))
         (request_of "print('a' * 10050, end='')") world0)
  = Returned (jsonify [("stdout", JStr (cap_output long_text));
                       ("stderr", JStr (cap_output ""));
                       ("exit_code", JNum 0)] 200)
  /\ capped long_text (cap_output long_text)
  /\ capped "" (cap_output "")
  /\ Py.len TRUNCATION_MARKER = 17.
Proof.
  apply (streams_capped_independently
           (env0 (ContainerExited 0 long_text "" []))
           (request_of "print('a' * 10050, end='')")
           "print('a' * 10050, end='')" world0 0 long_text "").
  - apply accepted_request_of. vm_compute. split; [reflexivity | discriminate].
  - reflexivity.
  - simpl. auto.
  - exact no_marker_in_empty.
Defined.

(** The sample stream is over the ceiling and comes back 10017 long. *)
Example cap_output_long_text :
  Py.len long_text = 10050 /\ Py.len (cap_output long_text) = 10017
  /\ cap_output "hi" = "hi".
Proof. vm_compute. repeat split. Qed.

(** ** Launch failures *)

(** The handler sees a completed process, never who wrote its streams. *)
Lemma run_code_completes_same env env' request_json code w rc out err :
  accepted request_json code -> fresh env w ->
  tempdir env' = tempdir env -> uuid4 env' = uuid4 env ->
  random_name env' = random_name env ->
  completes (engine env) rc out err -> completes (engine env') rc out err ->
  fst (run_code env' request_json w) = fst (run_code env request_json w).
Proof.
  intros Hacc Hfresh Ht Hu Hn Hc Hc'.
  assert (Hwd : workdir_of env' = workdir_of env).
  { unfold workdir_of. now rewrite Ht, Hu, Hn. }
  assert (Hfresh' : fresh env' w) by (unfold fresh; now rewrite Hwd).
  rewrite (run_code_completes _ _ _ _ _ _ _ Hacc Hfresh Hc).
  rewrite (run_code_completes _ _ _ _ _ _ _ Hacc Hfresh' Hc').
  rewrite Hwd. reflexivity.
Qed.

(** A launch failure the docker client reports by exiting is answered with
    status 200 and the fields of a program that failed by itself. *)
Lemma engine_failure_presented_as_program_failure :
  let request := request_of "print('hi')" in
  let r := fst (run_code (env0 (EngineFailed 125 daemon_down)) request world0) in
  accepted request "print('hi')"
  /\ http_status r = 200
  /\ r = Returned (jsonify [("stdout", JStr ""); ("stderr", JStr daemon_down);
                            ("exit_code", JNum 125)] 200)
  /\ r = fst (run_code (env0 (ContainerExited 125 "" daemon_down [])) request world0).
Proof.
  cbv zeta. split.
  - apply accepted_request_of. vm_compute. split; [reflexivity | discriminate].
  - vm_compute. repeat split.
Qed.

(** C5, as the handler has it: when the [docker] executable cannot be
    started, [subprocess.run] raises and the handler lets the exception
    through, a 500 that is not the time-out response.  When the docker client
    itself exits with a status and a diagnostic, the run is handled like any
    completed one, with the answer a container exiting with that status and
    that stderr text gets: the time-out object if the status is 124 or the
    diagnostic contains [Command terminated]; otherwise status 200 with an
    empty [stdout], the capped diagnostic as [stderr] and the status as
    [exit_code], which is not the time-out response. *)
Theorem launch_failure_outcomes env request_json code w :
  accepted request_json code -> fresh env w ->
  let r := fst (run_code env request_json w) in
  match engine env with
  | ExecFailed =>
      r = Raised OSError /\ http_status r = 500 /\ r <> Returned timeout_response
  | EngineFailed rc diag =>
      r = fst (run_code (with_engine (ContainerExited rc "" diag []) env) request_json w)
      /\ ((inner_marker rc diag /\ r = Returned timeout_response)
          \/ (~ inner_marker rc diag
              /\ r = Returned (jsonify [("stdout", JStr "");
                                        ("stderr", JStr (cap_output diag));
                                        ("exit_code", JNum rc)] 200)
              /\ http_status r = 200
              /\ r <> Returned timeout_response))
  | ContainerExited _ _ _ _ | Hung _ _ => True
  end.
Proof.
  intros Hacc Hfresh. cbv zeta.
  destruct (engine env) as [|rc diag| |] eqn:Hev; [| |exact I|exact I].
  - rewrite (run_code_fresh _ _ _ _ Hacc Hfresh), Hev.
    repeat split. discriminate.
  - split.
    + symmetry.
      apply (run_code_completes_same env _ _ code w rc "" diag);
        try assumption; try reflexivity.
      * rewrite Hev. simpl. auto.
      * simpl. auto.
    + assert (Hc : completes (engine env) rc "" diag) by (rewrite Hev; simpl; auto).
      rewrite (run_code_completes _ _ _ _ _ _ _ Hacc Hfresh Hc).
      destruct (timed_out rc diag) eqn:Ht.
      * apply timed_out_spec in Ht. left. split; [exact Ht|].
        now rewrite respond_marker.
      * apply timed_out_false in Ht. right. split; [exact Ht|].
        rewrite respond_normal by exact Ht. cbn [fst].
        rewrite (cap_output_short "") by (vm_compute; discriminate).
        repeat split. discriminate.
Qed.

Lemma launch_failure_outcomes_witness :
  let request := request_of "print('hi')" in
  let missing := fst (run_code (env0 ExecFailed) request world0) in
  let refused := fst (run_code (env0 (EngineFailed 125 daemon_down)) request world0) in
  (missing = Raised OSError /\ http_status missing = 500
   /\ missing <> Returned timeout_response)
  /\ (refused = fst (run_code (env0 (ContainerExited 125 "" daemon_down [])) request world0)
      /\ ((inner_marker 125 daemon_down /\ refused = Returned timeout_response)
          \/ (~ inner_marker 125 daemon_down
              /\ refused = Returned (jsonify [("stdout", JStr "");
                                              ("stderr", JStr (cap_output daemon_down));
                                              ("exit_code", JNum 125)] 200)
              /\ http_status refused = 200
              /\ refused <> Returned timeout_response))).
Proof.
  split.
  - apply (launch_failure_outcomes (env0 ExecFailed) (request_of "print('hi')")
             "print('hi')" world0).
    + apply accepted_request_of. vm_compute. split; [reflexivity | discriminate].
    + reflexivity.
  - apply (launch_failure_outcomes (env0 (EngineFailed 125 daemon_down))
             (request_of "print('hi')") "print('hi')" world0).
    + apply accepted_request_of. vm_compute. split; [reflexivity | discriminate].
    + reflexivity.
Defined.

(** ** Shape of the responses *)

(** A time-out response has none of the three result fields. *)
Lemma timeout_response_not_result_shape :
  let request := request_of "while True: pass" in
  let env := env0 (ContainerExited 124 "" "" []) in
  let r := fst (run_code env request world0) in
  accepted request "while True: pass" /\ fresh env world0 /\ is_timeout (engine env)
  /\ r = Returned (jsonify [("error", JStr "Execution timed out after 10 seconds.")] 200)
  /\ field "stdout" r = None /\ field "stderr" r = None /\ field "exit_code" r = None
  /\ ~ result_shape r.
Proof.
  cbv zeta. split; [|split; [|split]].
  - apply accepted_request_of. vm_compute. split; [reflexivity | discriminate].
  - reflexivity.
  - right. exists 124, "", "". split; [simpl; auto | left; reflexivity].
  - assert (Hr : fst (run_code (env0 (ContainerExited 124 "" "" []))
                        (request_of "while True: pass") world0)
                 = Returned (jsonify [("error", JStr "Execution timed out after 10 seconds.")] 200))
      by (vm_compute; reflexivity).
    rewrite Hr. repeat split.
    intros [so [se [ec [H _]]]]. discriminate H.
Qed.

Lemma inner_marker_dec rc err : {inner_marker rc err} + {~ inner_marker rc err}.
Proof.
  destruct (timed_out rc err) eqn:Ht.
  - left. now apply timed_out_spec.
  - right. now apply timed_out_false.
Qed.

(** C6, as the handler has it: an accepted request ends in one of three
    ways.  A time-out is answered with status 200 and the object whose only
    field is [error]; a run that completed without the time-out marker is
    answered with status 200 and the object of the capped stdout, the capped
    stderr and the exit status as it came; a [docker] executable that cannot
    be started is an exception. *)
Theorem response_shapes env request_json code w :
  accepted request_json code -> fresh env w ->
  let r := fst (run_code env request_json w) in
  (is_timeout (engine env)
   /\ r = Returned (jsonify [("error", JStr timeout_message)] 200))
  \/ (exists rc out err,
        completes (engine env) rc out err /\ ~ inner_marker rc err
        /\ r = Returned (jsonify [("stdout", JStr (cap_output out));
                                  ("stderr", JStr (cap_output err));
                                  ("exit_code", JNum rc)] 200)
        /\ result_shape r)
  \/ (engine env = ExecFailed /\ r = Raised OSError).
Proof.
  intros Hacc Hfresh. cbv zeta.
  assert (Hdone : forall rc out err, completes (engine env) rc out err ->
            (is_timeout (engine env)
             /\ fst (run_code env request_json w) = Returned timeout_response)
            \/ (~ inner_marker rc err
                /\ fst (run_code env request_json w)
                   = Returned (jsonify [("stdout", JStr (cap_output out));
                                        ("stderr", JStr (cap_output err));
                                        ("exit_code", JNum rc)] 200))).
  { intros rc out err Hc.
    rewrite (run_code_completes _ _ _ _ _ _ _ Hacc Hfresh Hc).
    destruct (inner_marker_dec rc err) as [Hm|Hm].
    - left. split; [right; eauto|]. now rewrite respond_marker.
    - right. split; [exact Hm|]. now rewrite respond_normal. }
  destruct (engine env) as [|rc diag|rc out err ops|started ops] eqn:Hev.
  - right. right. split; [reflexivity|].
    rewrite (run_code_fresh _ _ _ _ Hacc Hfresh), Hev. reflexivity.
  - destruct (Hdone rc "" diag) as [[Ht Hr]|[Hm Hr]]; [simpl; auto| |].
    + left. split; assumption.
    + right. left. exists rc, "", diag. rewrite Hr.
      repeat split; try assumption.
      eexists _, _, _. split; [reflexivity|]. right. eexists. reflexivity.
  - destruct (Hdone rc out err) as [[Ht Hr]|[Hm Hr]]; [simpl; auto| |].
    + left. split; assumption.
    + right. left. exists rc, out, err. rewrite Hr.
      repeat split; try assumption.
      eexists _, _, _. split; [reflexivity|]. right. eexists. reflexivity.
  - left. rewrite <- Hev. assert (Ht : is_timeout (engine env)).
    { left. rewrite Hev. eauto. }
    split; [exact Ht|]. exact (run_code_timeout _ _ _ _ Hacc Hfresh Ht).
Qed.

Lemma response_shapes_witness :
  let env := env0 (ContainerExited 0 "hi" "" []) in
  let r := fst (run_code env (request_of "print('hi', end='')") world0) in
  (is_timeout (engine env)
   /\ r = Returned (jsonify [("error", JStr timeout_message)] 200))
  \/ (exists rc out err,
        completes (engine env) rc out err /\ ~ inner_marker rc err
        /\ r = Returned (jsonify [("stdout", JStr (cap_output out));
                                  ("stderr", JStr (cap_output err));
                                  ("exit_code", JNum rc)] 200)
        /\ result_shape r)
  \/ (engine env = ExecFailed /\ r = Raised OSError).
Proof.
  apply (response_shapes (env0 (ContainerExited 0 "hi" "" []))
           (request_of "print('hi', end='')") "print('hi', end='')" world0).
  - apply accepted_request_of. vm_compute. split; [reflexivity | discriminate].
  - reflexivity.
Defined.

(** ** The container invocation *)

Lemma command_of_flags env :
  command_of env
  = ["docker"; "run"; "--rm";
     "--network"; "none";
     "--memory"; "128m";
     "--pids-limit"; "64";
     "--cpus"; "0.5";
     "--read-only";
     "-v"; script_path_of env +:+ ":/app/script.py:ro";
     "-v"; workdir_of env +:+ ":/app/writable";
     "python:3.11-slim"; "timeout"; "10"; "python"; "-u"; "/app/script.py"].
Proof. reflexivity. Qed.

(** C7: for every accepted request the one container invocation carries the
    fixed flags: removal on exit, no network, the memory, process-count and
    CPU ceilings, the read-only root, the source mounted read-only at
    [/app/script.py] and a second, writable mount.  The command line is
    built from the temporary path alone: two accepted requests with
    different sources, served in the same environment, start the same
    command. *)
Theorem hardened_invocation env w request1 code1 request2 code2 :
  accepted request1 code1 -> accepted request2 code2 -> fresh env w ->
  map fst (spawned (snd (run_code env request1 w)))
  = map fst (spawned w) ++
    [["docker"; "run"; "--rm";
      "--network"; "none";
      "--memory"; "128m";
      "--pids-limit"; "64";
      "--cpus"; "0.5";
      "--read-only";
      "-v"; script_path_of env +:+ ":/app/script.py:ro";
      "-v"; workdir_of env +:+ ":/app/writable";
      "python:3.11-slim"; "timeout"; "10"; "python"; "-u"; "/app/script.py"]]
  /\ spawned (snd (run_code env request2 w)) = spawned (snd (run_code env request1 w)).
Proof.
  intros Hacc1 Hacc2 Hfresh.
  rewrite (run_code_spawned _ _ _ _ Hacc1 Hfresh), (run_code_spawned _ _ _ _ Hacc2 Hfresh).
  rewrite map_app, <- command_of_flags. split; reflexivity.
Qed.

Lemma hardened_invocation_witness :
  let env := env0 (ContainerExited 0 "hi" "" []) in
  map fst (spawned (snd (run_code env (request_of "print('hi')") world0)))
  = map fst (spawned world0) ++
    [["docker"; "run"; "--rm";
      "--network"; "none";
      "--memory"; "128m";
      "--pids-limit"; "64";
      "--cpus"; "0.5";
      "--read-only";
      "-v"; script_path_of env +:+ ":/app/script.py:ro";
      "-v"; workdir_of env +:+ ":/app/writable";
      "python:3.11-slim"; "timeout"; "10"; "python"; "-u"; "/app/script.py"]]
  /\ spawned (snd (run_code env (request_of "--privileged") world0))
     = spawned (snd (run_code env (request_of "print('hi')") world0)).
Proof.
  apply (hardened_invocation (env0 (ContainerExited 0 "hi" "" [])) world0
           (request_of "print('hi')") "print('hi')"
           (request_of "--privileged") "--privileged").
  - apply accepted_request_of. vm_compute. split; [reflexivity | discriminate].
  - apply accepted_request_of. vm_compute. split; [reflexivity | discriminate].
  - reflexivity.
Defined.

(** C8: the time-out given to [subprocess.run] around the whole invocation
    is [TIMEOUT_SECONDS + 2], 12 seconds, and the number given to the
    in-sandbox [timeout] wrapper is [TIMEOUT_SECONDS], 10 seconds: the outer
    one is the larger, by 2. *)
Theorem outer_timeout_exceeds_inner env request_json code w :
  accepted request_json code -> fresh env w ->
  exists argv outer pre,
    spawned (snd (run_code env request_json w)) = spawned w ++ [(argv, outer)]
    /\ argv = pre ++ [DOCKER_IMAGE; "timeout"; Py.str TIMEOUT_SECONDS;
                      "python"; "-u"; "/app/script.py"]
    /\ outer = TIMEOUT_SECONDS + 2
    /\ TIMEOUT_SECONDS < outer
    /\ outer = 12 /\ TIMEOUT_SECONDS = 10 /\ outer - TIMEOUT_SECONDS = 2.
Proof.
  intros Hacc Hfresh. destruct (command_of_wrapper env) as [pre Hpre].
  exists (command_of env), (TIMEOUT_SECONDS + 2), pre.
  split; [exact (run_code_spawned _ _ _ _ Hacc Hfresh)|].
  split; [exact Hpre|]. unfold TIMEOUT_SECONDS. repeat split.
Qed.

Lemma outer_timeout_exceeds_inner_witness :
  exists argv outer pre,
    spawned (snd (run_code (env0 (Hung false [])) (request_of "while True: pass") world0))
    = spawned world0 ++ [(argv, outer)]
    /\ argv = pre ++ [DOCKER_IMAGE; "timeout"; Py.str TIMEOUT_SECONDS;
                      "python"; "-u"; "/app/script.py"]
    /\ outer = TIMEOUT_SECONDS + 2
    /\ TIMEOUT_SECONDS < outer
    /\ outer = 12 /\ TIMEOUT_SECONDS = 10 /\ outer - TIMEOUT_SECONDS = 2.
Proof.
  apply (outer_timeout_exceeds_inner (env0 (Hung false []))
           (request_of "while True: pass") "while True: pass" world0).
  - apply accepted_request_of. vm_compute. split; [reflexivity | discriminate].
  - reflexivity.
Defined.

(** ** Validation *)

(** A body that is an object, or that is falsy, with an unusable ['code']:
    status 400 and the host state untouched. *)
Lemma invalid_code_rejected env request_json d w :
  py_or request_json (JDict []) = JDict d ->
  (forall code, from_option id (JStr "") (dict_lookup "code" d) = JStr code ->
                Py.len code = 0 \/ MAX_CHARS < Py.len code) ->
  exists msg,
    run_code env request_json w = (Returned (jsonify [("error", JStr msg)] 400), w).
Proof.
  intros Hdata Hbad. unfold run_code. rewrite Hdata. cbn [get].
  destruct (from_option id (JStr "") (dict_lookup "code" d)) as [|b|n|code|l|d'];
    try (eexists; reflexivity).
  destruct (Hbad code eq_refl) as [Hlen|Hlen].
  - rewrite Hlen. eexists. reflexivity.
  - destruct (Z.eqb_spec (Py.len code) 0) as [_|_]; [eexists; reflexivity|].
    destruct (Z.gtb_spec (Py.len code) MAX_CHARS) as [_|?]; [|lia].
    eexists. reflexivity.
Qed.

(** Whatever the body, a request that is not accepted changes nothing on the
    host. *)
Lemma not_accepted_no_side_effect env request_json w :
  (forall code, ~ accepted request_json code) ->
  snd (run_code env request_json w) = w.
Proof.
  intros Hrej. unfold run_code.
  destruct (get (py_or request_json (JDict [])) "code" (JStr "")) as [e|v] eqn:Hget;
    [reflexivity|].
  destruct v as [|b|n|code|l|d']; try reflexivity.
  destruct (Z.eqb_spec (Py.len code) 0) as [_|Hne]; [reflexivity|].
  destruct (Z.gtb_spec (Py.len code) MAX_CHARS) as [_|Hle]; [reflexivity|].
  exfalso. apply (Hrej code). split; [exact Hget|].
  pose proof (len_nonneg code). lia.
Qed.

(** C9: a request without a usable ['code'] gets a 400 and causes no side
    effect.  The decoded body [[1]] has no ['code'] field; the handler calls
    [get] on the list, which raises, and the request ends as a 500.  Nothing
    on the host changes. *)
Theorem non_object_body_raises env w :
  run_code env (JList [JNum 1]) w = (Raised AttributeError, w)
  /\ http_status (fst (run_code env (JList [JNum 1]) w)) = 500.
Proof. split; reflexivity. Qed.

(** The four rejected shapes of an object body. *)
Example rejected_bodies :
  let ev := ContainerExited 0 "" "" [] in
  run_code (env0 ev) (JDict []) world0
  = (Returned (jsonify [("error", JStr "No code provided.")] 400), world0)
  /\ run_code (env0 ev) JNull world0
     = (Returned (jsonify [("error", JStr "No code provided.")] 400), world0)
  /\ run_code (env0 ev) (JDict [("code", JNum 7)]) world0
     = (Returned (jsonify [("error", JStr "Field 'code' must be a string.")] 400), world0)
  /\ run_code (env0 ev) (request_of "") world0
     = (Returned (jsonify [("error", JStr "No code provided.")] 400), world0)
  /\ run_code (env0 ev) (request_of long_source) world0
     = (Returned (jsonify [("error",
                            JStr "Code too long. Max 5000 characters allowed.")] 400),
        world0).
Proof. vm_compute. repeat split. Qed.

(** ** The stderr marker *)

(** C10: a completed run whose stderr contains [Command terminated] is
    answered as a time-out whatever its exit status and its stdout: the
    answer is the time-out response, with no [stdout], [stderr] or
    [exit_code] field, also for exit status 0, and the same for every other
    exit status and stdout beside that stderr. *)
Theorem stderr_marker_forces_timeout env request_json code w rc out err :
  accepted request_json code -> fresh env w ->
  completes (engine env) rc out err -> occurs "Command terminated" err ->
  let r := fst (run_code env request_json w) in
  timed_out rc err = true
  /\ r = Returned timeout_response
  /\ field "stdout" r = None /\ field "stderr" r = None /\ field "exit_code" r = None
  /\ forall rc' out' ops',
       fst (run_code (with_engine (ContainerExited rc' out' err ops') env) request_json w) = r.
Proof.
  intros Hacc Hfresh Hc Hocc. cbv zeta.
  assert (Hr : fst (run_code env request_json w) = Returned timeout_response).
  { apply (run_code_timeout _ _ _ _ Hacc Hfresh). right.
    exists rc, out, err. split; [exact Hc | right; exact Hocc]. }
  rewrite Hr. split; [apply timed_out_spec; right; exact Hocc|].
  repeat split.
  intros rc' out' ops'.
  apply (run_code_timeout _ _ code w Hacc); [exact Hfresh|].
  right. exists rc', out', err. split; [simpl; auto | right; exact Hocc].
Qed.

Lemma stderr_marker_forces_timeout_witness :
  let env := env0 (ContainerExited 0 "done" "Command terminated" []) in
  let request := request_of "import sys; sys.stderr.write('Command terminated')" in
  let r := fst (run_code env request world0) in
  timed_out 0 "Command terminated" = true
  /\ r = Returned timeout_response
  /\ field "stdout" r = None /\ field "stderr" r = None /\ field "exit_code" r = None
  /\ forall rc' out' ops',
       fst (run_code (with_engine (ContainerExited rc' out' "Command terminated" ops') env)
              request world0) = r.
Proof.
  apply (stderr_marker_forces_timeout
           (env0 (ContainerExited 0 "done" "Command terminated" []))
           (request_of "import sys; sys.stderr.write('Command terminated')")
           "import sys; sys.stderr.write('Command terminated')"
           world0 0 "done" "Command terminated").
  - apply accepted_request_of. vm_compute. split; [reflexivity | discriminate].
  - reflexivity.
  - simpl. auto.
  - exists "", "". reflexivity.
Defined.

(** * Further properties of the handler *)

(** ** Every request, accepted or not *)

Lemma py_or_dict d : py_or (JDict d) (JDict []) = JDict d.
Proof. destruct d; reflexivity. Qed.

Lemma py_or_falsy v : truthy v = false -> py_or v (JDict []) = JDict [].
Proof. intros Hf. unfold py_or. now rewrite Hf. Qed.

(** A request is either run, or answered on the spot without touching the
    host. *)
Lemma run_code_cases env request_json w :
  (exists code, accepted request_json code
                /\ run_code env request_json w = run_accepted env code w)
  \/ (exists r, run_code env request_json w = (r, w)
                /\ ((exists msg, r = Returned (jsonify [("error", JStr msg)] 400))
                    \/ r = Raised AttributeError)).
Proof.
  unfold run_code.
  destruct (get (py_or request_json (JDict [])) "code" (JStr "")) as [e|v] eqn:Hget.
  - right. exists (Raised e). split; [reflexivity|]. right.
    unfold get in Hget. destruct (py_or _ _); congruence.
  - destruct v as [|b|n|code|l|d];
      try (right; eexists; split; [reflexivity | left; eexists; reflexivity]).
    destruct (Z.eqb_spec (Py.len code) 0) as [_|Hne];
      [right; eexists; split; [reflexivity | left; eexists; reflexivity]|].
    destruct (Z.gtb_spec (Py.len code) MAX_CHARS) as [_|Hle];
      [right; eexists; split; [reflexivity | left; eexists; reflexivity]|].
    left. exists code. split; [|reflexivity].
    split; [exact Hget|]. pose proof (len_nonneg code). lia.
Qed.

(** Once accepted, either the temporary name is taken and the handler raises
    at once, or it reaches [docker run] on the staged state. *)
Lemma run_accepted_cases env code w :
  run_accepted env code w = (Raised OSError, w)
  \/ (fresh env w
      /\ run_accepted env code w
         = let '(r, w') := subprocess_run (command_of env) (TIMEOUT_SECONDS + 2)
                                          (engine env) (staged env code w) in
           respond (workdir_of env) r w').
Proof.
  destruct (disk w !! workdir_of env) as [entries|] eqn:Hdir.
  - left. unfold run_accepted, mkdtemp, Fs.mkdir. fold (workdir_of env).
    now rewrite Hdir.
  - right. split; [exact Hdir|]. now apply run_accepted_fresh.
Qed.

Lemma respond_status workdir r w :
  http_status (fst (respond workdir r w)) = 200
  \/ http_status (fst (respond workdir r w)) = 500.
Proof.
  destruct r as [[| |]|proc]; simpl; auto.
  destruct (timed_out _ _); simpl; auto.
Qed.

(** X1: a body without a ['code'] entry, or a body that is falsy (null,
    false, zero, the empty string, array or object), is answered like an empty
    source: status 400, the message [No code provided.], nothing changed on
    the host. *)
Theorem missing_code_is_no_code env request_json w :
  truthy request_json = false
  \/ (exists d, request_json = JDict d /\ dict_lookup "code" d = None) ->
  run_code env request_json w
  = (Returned (jsonify [("error", JStr "No code provided.")] 400), w).
Proof.
  intros [Hfalsy | [d [-> Hmiss]]]; unfold run_code.
  - now rewrite (py_or_falsy _ Hfalsy).
  - rewrite py_or_dict. cbn [get]. now rewrite Hmiss.
Qed.

Lemma missing_code_is_no_code_witness :
  run_code (env0 ExecFailed) (JDict [("source", JStr "print(1)")]) world0
  = (Returned (jsonify [("error", JStr "No code provided.")] 400), world0).
Proof.
  apply (missing_code_is_no_code (env0 ExecFailed)
           (JDict [("source", JStr "print(1)")]) world0).
  right. exists [("source", JStr "print(1)")]. split; reflexivity.
Defined.

(** X2: an object body whose ['code'] is present but not a string (a number,
    a boolean, null, an array, an object) is answered with status 400 and the
    message [Field 'code' must be a string.], nothing changed on the host. *)
Theorem non_string_code_rejected env d v w :
  dict_lookup "code" d = Some v -> (forall s, v <> JStr s) ->
  run_code env (JDict d) w
  = (Returned (jsonify [("error", JStr "Field 'code' must be a string.")] 400), w).
Proof.
  intros Hv Hns. unfold run_code. rewrite py_or_dict. cbn [get]. rewrite Hv.
  destruct v as [|b|n|s|l|d']; try reflexivity.
  now destruct (Hns s).
Qed.

Lemma non_string_code_rejected_witness :
  run_code (env0 ExecFailed) (JDict [("code", JNull)]) world0
  = (Returned (jsonify [("error", JStr "Field 'code' must be a string.")] 400), world0).
Proof.
  apply (non_string_code_rejected (env0 ExecFailed) [("code", JNull)] JNull world0).
  - reflexivity.
  - intros s. discriminate.
Defined.

(** X3: a source longer than [MAX_CHARS] characters is answered with status
    400 and the message naming the limit, [Code too long. Max 5000 characters
    allowed.], nothing changed on the host. *)
Theorem long_code_rejected env d code w :
  dict_lookup "code" d = Some (JStr code) -> MAX_CHARS < Py.len code ->
  run_code env (JDict d) w
  = (Returned (jsonify [("error",
                         JStr "Code too long. Max 5000 characters allowed.")] 400), w).
Proof.
  intros Hv Hlong. unfold run_code. rewrite py_or_dict. cbn [get]. rewrite Hv.
  cbn [from_option id].
  destruct (Z.eqb_spec (Py.len code) 0) as [Hz|_]; [unfold MAX_CHARS in Hlong; lia|].
  destruct (Z.gtb_spec (Py.len code) MAX_CHARS) as [_|?]; [reflexivity | lia].
Qed.

Lemma long_code_rejected_witness :
  run_code (env0 ExecFailed) (JDict [("code", JStr long_source)]) world0
  = (Returned (jsonify [("error",
                         JStr "Code too long. Max 5000 characters allowed.")] 400), world0).
Proof.
  apply (long_code_rejected (env0 ExecFailed) [("code", JStr long_source)]
           long_source world0).
  - reflexivity.
  - vm_compute. reflexivity.
Defined.

(** X4: the limit is inclusive: a source of exactly [MAX_CHARS] characters
    is run, one [docker run] being started for it. *)
Theorem code_at_limit_runs env code w :
  Py.len code = MAX_CHARS -> fresh env w ->
  spawned (snd (run_code env (request_of code) w))
  = spawned w ++ [(command_of env, TIMEOUT_SECONDS + 2)].
Proof.
  intros Hlen Hfresh.
  apply (run_code_spawned env (request_of code) code w); [|exact Hfresh].
  apply accepted_request_of. rewrite Hlen. unfold MAX_CHARS. lia.
Qed.

Lemma code_at_limit_runs_witness :
  spawned (snd (run_code (env0 (ContainerExited 0 "" "" [])) (request_of limit_source) world0))
  = spawned world0
    ++ [(command_of (env0 (ContainerExited 0 "" "" [])), TIMEOUT_SECONDS + 2)].
Proof.
  apply (code_at_limit_runs (env0 (ContainerExited 0 "" "" [])) limit_source world0).
  - vm_compute. reflexivity.
  - reflexivity.
Defined.

(** X5: a decoded body that is truthy and not an object (a non-empty array
    or string, a non-zero number, true) makes [get] raise: the handler ends
    with [AttributeError] and the host state is untouched. *)
Theorem truthy_non_object_raises env request_json w :
  truthy request_json = true -> (forall d, request_json <> JDict d) ->
  run_code env request_json w = (Raised AttributeError, w).
Proof.
  intros Ht Hnd. unfold run_code, py_or. rewrite Ht.
  destruct request_json as [|b|n|s|l|d]; try reflexivity.
  now destruct (Hnd d).
Qed.

Lemma truthy_non_object_raises_witness :
  run_code (env0 ExecFailed) (JStr "print(1)") world0 = (Raised AttributeError, world0).
Proof.
  apply (truthy_non_object_raises (env0 ExecFailed) (JStr "print(1)") world0).
  - reflexivity.
  - intros d. discriminate.
Defined.

(** X6: a 400 is only ever a refusal: whenever the handler answers with
    status 400, the host state is what it was: no directory, no file, no
    process. *)
Theorem status_400_no_effect env request_json w :
  http_status (fst (run_code env request_json w)) = 400 ->
  snd (run_code env request_json w) = w.
Proof.
  intros H400.
  destruct (run_code_cases env request_json w) as [[code [_ Hrun]] | [r [Hrun _]]].
  - exfalso. rewrite Hrun in H400.
    destruct (run_accepted_cases env code w) as [Ht | [_ Hf]].
    + rewrite Ht in H400. discriminate.
    + rewrite Hf in H400. destruct (subprocess_run _ _ _ _) as [r w'].
      destruct (respond_status (workdir_of env) r w') as [Hs|Hs];
        rewrite Hs in H400; discriminate.
  - now rewrite Hrun.
Qed.

Lemma status_400_no_effect_witness :
  snd (run_code (env0 (Hung true [])) (request_of "") world0) = world0.
Proof.
  apply (status_400_no_effect (env0 (Hung true [])) (request_of "") world0).
  reflexivity.
Defined.

(** X7: a 200 is only ever given after a run: whenever the handler answers
    with status 200, the request was an accepted one and exactly one command,
    the [docker run] with the supervisory time-out, was started for it. *)
Theorem status_200_after_one_run env request_json w :
  http_status (fst (run_code env request_json w)) = 200 ->
  (exists code, accepted request_json code)
  /\ spawned (snd (run_code env request_json w))
     = spawned w ++ [(command_of env, TIMEOUT_SECONDS + 2)].
Proof.
  intros H200.
  destruct (run_code_cases env request_json w) as [[code [Hacc Hrun]] | [r [Hrun Hr]]].
  - split; [eauto|].
    destruct (run_accepted_cases env code w) as [Ht | [Hfresh _]].
    + rewrite Hrun, Ht in H200. discriminate.
    + exact (run_code_spawned _ _ _ _ Hacc Hfresh).
  - exfalso. rewrite Hrun in H200. cbn [fst] in H200.
    destruct Hr as [[msg ->] | ->]; discriminate.
Qed.

Lemma status_200_after_one_run_witness :
  let env := env0 (ContainerExited 1 "" "boom" []) in
  (exists code, accepted (request_of "raise ValueError('x')") code)
  /\ spawned (snd (run_code env (request_of "raise ValueError('x')") world0))
     = spawned world0 ++ [(command_of env, TIMEOUT_SECONDS + 2)].
Proof.
  apply (status_200_after_one_run (env0 (ContainerExited 1 "" "boom" []))
           (request_of "raise ValueError('x')") world0).
  reflexivity.
Defined.

(** X8: whatever the request and the engine do, the handler starts at most
    one external command, and if it starts one it is the [docker run] of this
    request with the supervisory time-out. *)
Theorem at_most_one_command env request_json w :
  spawned (snd (run_code env request_json w)) = spawned w
  \/ spawned (snd (run_code env request_json w))
     = spawned w ++ [(command_of env, TIMEOUT_SECONDS + 2)].
Proof.
  destruct (run_code_cases env request_json w) as [[code [Hacc Hrun]] | [r [Hrun _]]].
  - destruct (run_accepted_cases env code w) as [Ht | [Hfresh _]].
    + left. now rewrite Hrun, Ht.
    + right. exact (run_code_spawned _ _ _ _ Hacc Hfresh).
  - left. now rewrite Hrun.
Qed.

(** ** The workspace on the normal path *)

Lemma run_code_normal env request_json code w rc out err ops :
  accepted request_json code -> fresh env w ->
  engine env = ContainerExited rc out err ops -> ~ inner_marker rc err ->
  snd (run_code env request_json w)
  = {| disk := cleanup (workdir_of env)
                 (apply_ops ops (<[workdir_of env := {["script.py" := code]}]> (disk w)));
       containers := containers w;
       spawned := spawned w ++ [(command_of env, TIMEOUT_SECONDS + 2)] |}.
Proof.
  intros Hacc Hfresh Hev Hm.
  rewrite (run_code_fresh _ _ _ _ Hacc Hfresh), Hev.
  cbn [subprocess_run]. rewrite respond_normal by exact Hm. reflexivity.
Qed.

(** X9: a run that completes without the time-out marker, and whose program
    left the directory alone, leaves the host as it found it: the disk is the
    one before the request, no container is left, and the only trace is the
    one logged command. *)
Theorem normal_run_restores_host env request_json code w rc out err :
  accepted request_json code -> fresh env w ->
  engine env = ContainerExited rc out err [] -> ~ inner_marker rc err ->
  snd (run_code env request_json w)
  = {| disk := disk w;
       containers := containers w;
       spawned := spawned w ++ [(command_of env, TIMEOUT_SECONDS + 2)] |}.
Proof.
  intros Hacc Hfresh Hev Hm.
  rewrite (run_code_normal _ _ _ _ _ _ _ _ Hacc Hfresh Hev Hm).
  cbn [apply_ops fold_left]. now rewrite cleanup_staged.
Qed.

Lemma normal_run_restores_host_witness :
  let env := env0 (ContainerExited 0 "hi" "" []) in
  snd (run_code env (request_of "print('hi', end='')") world0)
  = {| disk := disk world0;
       containers := containers world0;
       spawned := spawned world0 ++ [(command_of env, TIMEOUT_SECONDS + 2)] |}.
Proof.
  apply (normal_run_restores_host (env0 (ContainerExited 0 "hi" "" []))
           (request_of "print('hi', end='')") "print('hi', end='')" world0 0 "hi" "").
  - apply accepted_request_of. vm_compute. split; [reflexivity | discriminate].
  - reflexivity.
  - reflexivity.
  - exact no_marker_in_empty.
Defined.

(** X10: the clean-up is one guarded block.  When the program removed its own
    source through the writable mount, [os.remove] raises, [os.rmdir] is
    skipped with it, and the now empty directory stays on disk; the answer is
    the ordinary result all the same. *)
Theorem unlinked_script_leaves_directory env request_json code w rc out err :
  accepted request_json code -> fresh env w ->
  engine env = ContainerExited rc out err [HostUnlink (workdir_of env) "script.py"] ->
  ~ inner_marker rc err ->
  disk (snd (run_code env request_json w)) = <[workdir_of env := ∅]> (disk w)
  /\ http_status (fst (run_code env request_json w)) = 200.
Proof.
  intros Hacc Hfresh Hev Hm. split.
  - rewrite (run_code_normal _ _ _ _ _ _ _ _ Hacc Hfresh Hev Hm). cbn [disk].
    cbn [apply_ops fold_left apply_op]. unfold Fs.remove at 1.
    rewrite lookup_insert_eq, lookup_singleton_eq, delete_singleton_eq, insert_insert_eq.
    cbn [from_option id]. unfold cleanup, Fs.remove.
    now rewrite lookup_insert_eq, lookup_empty.
  - rewrite (run_code_completes env request_json code w rc out err Hacc Hfresh)
      by (rewrite Hev; simpl; auto).
    now rewrite respond_normal.
Qed.

Lemma unlinked_script_leaves_directory_witness :
  let env := env0 (ContainerExited 0 "" ""
                     [HostUnlink "/tmp/exec_3f2b8c1e_k3j9x_qa" "script.py"]) in
  let request := request_of "import os; os.remove('/app/writable/script.py')" in
  disk (snd (run_code env request world0)) = <[workdir_of env := ∅]> (disk world0)
  /\ http_status (fst (run_code env request world0)) = 200.
Proof.
  apply (unlinked_script_leaves_directory
           (env0 (ContainerExited 0 "" ""
                    [HostUnlink "/tmp/exec_3f2b8c1e_k3j9x_qa" "script.py"]))
           (request_of "import os; os.remove('/app/writable/script.py')")
           "import os; os.remove('/app/writable/script.py')" world0 0 "" "").
  - apply accepted_request_of. vm_compute. split; [reflexivity | discriminate].
  - reflexivity.
  - reflexivity.
  - exact no_marker_in_empty.
Defined.

(** X11: an entry the program leaves in the writable mount blocks the removal
    of the directory: the source file is removed, [os.rmdir] fails on the
    non-empty directory, the failure is swallowed, and the directory stays
    with that entry. *)
Theorem scratch_entry_blocks_rmdir env request_json code w rc out err name content :
  accepted request_json code -> fresh env w ->
  engine env = ContainerExited rc out err [HostWrite (workdir_of env) name content] ->
  ~ inner_marker rc err -> name <> "script.py" ->
  disk (snd (run_code env request_json w))
  = <[workdir_of env := {[name := content]}]> (disk w)
  /\ http_status (fst (run_code env request_json w)) = 200.
Proof.
  intros Hacc Hfresh Hev Hm Hname. split.
  - rewrite (run_code_normal _ _ _ _ _ _ _ _ Hacc Hfresh Hev Hm). cbn [disk].
    cbn [apply_ops fold_left apply_op]. unfold Fs.write.
    rewrite lookup_insert_eq, insert_insert_eq. cbn [from_option id].
    unfold cleanup, Fs.remove. rewrite lookup_insert_eq.
    rewrite lookup_insert_ne, lookup_singleton_eq by exact Hname.
    rewrite insert_insert_eq, delete_insert_ne, delete_singleton_eq by congruence.
    unfold Fs.rmdir. rewrite lookup_insert_eq.
    rewrite bool_decide_eq_false_2 by apply insert_non_empty.
    now rewrite insert_empty.
  - rewrite (run_code_completes env request_json code w rc out err Hacc Hfresh)
      by (rewrite Hev; simpl; auto).
    now rewrite respond_normal.
Qed.

Lemma scratch_entry_blocks_rmdir_witness :
  let env := env0 (ContainerExited 0 "" ""
                     [HostWrite "/tmp/exec_3f2b8c1e_k3j9x_qa" "out.txt" "x"]) in
  let request := request_of "open('/app/writable/out.txt', 'w').write('x')" in
  disk (snd (run_code env request world0))
  = <[workdir_of env := {["out.txt" := "x"]}]> (disk world0)
  /\ http_status (fst (run_code env request world0)) = 200.
Proof.
  apply (scratch_entry_blocks_rmdir
           (env0 (ContainerExited 0 "" ""
                    [HostWrite "/tmp/exec_3f2b8c1e_k3j9x_qa" "out.txt" "x"]))
           (request_of "open('/app/writable/out.txt', 'w').write('x')")
           "open('/app/writable/out.txt', 'w').write('x')" world0 0 "" "" "out.txt" "x").
  - apply accepted_request_of. vm_compute. split; [reflexivity | discriminate].
  - reflexivity.
  - reflexivity.
  - exact no_marker_in_empty.
  - discriminate.
Defined.

(** ** Other directories *)

Lemma apply_op_other o (d : gmap string (gmap string string)) dir :
  op_dir o <> dir -> apply_op o d !! dir = d !! dir.
Proof.
  intros Hne. destruct o as [dir' name content|dir' name]; simpl in Hne |- *.
  - unfold Fs.write. destruct (d !! dir'); cbn [from_option id]; [|reflexivity].
    now rewrite lookup_insert_ne.
  - unfold Fs.remove. destruct (d !! dir') as [entries|]; cbn [from_option id];
      [|reflexivity].
    destruct (entries !! name); cbn [from_option id]; [|reflexivity].
    now rewrite lookup_insert_ne.
Qed.

Lemma apply_ops_other ops dir : forall d : gmap string (gmap string string),
  Forall (fun o => op_dir o <> dir) ops -> apply_ops ops d !! dir = d !! dir.
Proof.
  induction ops as [|o ops IH]; intros d Hall; [reflexivity|].
  inversion Hall as [|? ? Ho Hops]; subst.
  cbn [apply_ops fold_left]. fold (apply_ops ops (apply_op o d)).
  rewrite IH by exact Hops. now apply apply_op_other.
Qed.

Lemma cleanup_other workdir (d : gmap string (gmap string string)) dir :
  workdir <> dir -> cleanup workdir d !! dir = d !! dir.
Proof.
  intros Hne. unfold cleanup, Fs.remove.
  destruct (d !! workdir) as [entries|]; [|reflexivity].
  destruct (entries !! "script.py"); [|reflexivity].
  unfold Fs.rmdir. rewrite lookup_insert_eq.
  destruct (bool_decide _).
  - now rewrite lookup_delete_ne, lookup_insert_ne.
  - now rewrite lookup_insert_ne.
Qed.

Lemma subprocess_run_disk argv t ev w :
  disk (snd (subprocess_run argv t ev w)) = apply_ops (event_ops ev) (disk w).
Proof. destruct ev; reflexivity. Qed.

Lemma respond_disk workdir r w :
  disk (snd (respond workdir r w)) = disk w
  \/ disk (snd (respond workdir r w)) = cleanup workdir (disk w).
Proof.
  destruct r as [[| |]|proc]; simpl; auto.
  destruct (timed_out _ _); simpl; auto.
Qed.

(** X12: the handler works in its own directory only.  Whatever the request
    and however the run ends, a directory other than the workspace, which the
    program's own writes do not reach, holds after the request what it held
    before. *)
Theorem other_directories_untouched env request_json w dir :
  Forall (fun o => op_dir o <> dir) (event_ops (engine env)) ->
  dir <> workdir_of env ->
  disk (snd (run_code env request_json w)) !! dir = disk w !! dir.
Proof.
  intros Hops Hdir.
  destruct (run_code_cases env request_json w) as [[code [Hacc Hrun]] | [r [Hrun _]]];
    [|now rewrite Hrun].
  rewrite Hrun.
  destruct (run_accepted_cases env code w) as [Ht | [Hfresh Hf]]; [now rewrite Ht|].
  rewrite Hf.
  pose proof (subprocess_run_disk (command_of env) (TIMEOUT_SECONDS + 2)
                (engine env) (staged env code w)) as Hd.
  destruct (subprocess_run _ _ _ _) as [r w']. cbn [snd] in Hd.
  assert (Hw' : disk w' !! dir = disk w !! dir).
  { rewrite Hd, apply_ops_other by exact Hops.
    unfold staged, with_disk. cbn [disk]. now rewrite lookup_insert_ne. }
  destruct (respond_disk (workdir_of env) r w') as [-> | ->]; [exact Hw'|].
  rewrite cleanup_other by congruence. exact Hw'.
Qed.

Lemma other_directories_untouched_witness :
  let w := {| disk := {["/tmp/keep" := {["notes.txt" := "mine"]}]};
              containers := []; spawned := [] |} in
  let env := env0 (ContainerExited 0 "" ""
                     [HostWrite "/tmp/exec_3f2b8c1e_k3j9x_qa" "out.txt" "x"]) in
  disk (snd (run_code env (request_of "print(1)") w)) !! "/tmp/keep"
  = disk w !! "/tmp/keep".
Proof.
  apply (other_directories_untouched
           (env0 (ContainerExited 0 "" ""
                    [HostWrite "/tmp/exec_3f2b8c1e_k3j9x_qa" "out.txt" "x"]))
           (request_of "print(1)")
           {| disk := {["/tmp/keep" := {["notes.txt" := "mine"]}]};
              containers := []; spawned := [] |}
           "/tmp/keep").
  - repeat constructor. simpl. discriminate.
  - vm_compute. discriminate.
Defined.

(** ** What the answer depends on *)

Lemma subprocess_run_fst argv t ev w argv' t' w' :
  fst (subprocess_run argv t ev w) = fst (subprocess_run argv' t' ev w').
Proof. destruct ev; reflexivity. Qed.

Lemma subprocess_run_fst_ops argv t w argv' t' w' rc out err ops ops' :
  fst (subprocess_run argv t (ContainerExited rc out err ops) w)
  = fst (subprocess_run argv' t' (ContainerExited rc out err ops') w').
Proof. reflexivity. Qed.

Lemma respond_fst workdir r w workdir' w' :
  fst (respond workdir r w) = fst (respond workdir' r w').
Proof.
  destruct r as [[| |]|proc]; simpl; try reflexivity.
  destruct (timed_out _ _); reflexivity.
Qed.

Lemma run_code_answer env request_json code w :
  accepted request_json code -> fresh env w ->
  fst (run_code env request_json w)
  = fst (respond "" (fst (subprocess_run [] 0 (engine env) world0)) world0).
Proof.
  intros Hacc Hfresh. rewrite (run_code_fresh _ _ _ _ Hacc Hfresh).
  pose proof (subprocess_run_fst (command_of env) (TIMEOUT_SECONDS + 2) (engine env)
                (staged env code w) [] 0 world0) as Hr.
  destruct (subprocess_run (command_of env) _ _ _) as [r w']. cbn [fst] in Hr.
  rewrite <- Hr. apply respond_fst.
Qed.

(** X13: the answer to an accepted request is made of what the invocation
    returned and of nothing else: two accepted requests whose invocations end
    the same way get the same answer, whatever their source texts, their
    temporary names and the state of the host. *)
Theorem answer_depends_on_outcome_only env1 request1 code1 w1 env2 request2 code2 w2 :
  accepted request1 code1 -> fresh env1 w1 ->
  accepted request2 code2 -> fresh env2 w2 ->
  engine env1 = engine env2 ->
  fst (run_code env1 request1 w1) = fst (run_code env2 request2 w2).
Proof.
  intros Hacc1 Hfresh1 Hacc2 Hfresh2 Hev.
  rewrite (run_code_answer _ _ _ _ Hacc1 Hfresh1), (run_code_answer _ _ _ _ Hacc2 Hfresh2).
  now rewrite Hev.
Qed.

Lemma answer_depends_on_outcome_only_witness :
  fst (run_code (env0 (ContainerExited 0 "hi" "" [])) (request_of "print('hi', end='')") world0)
  = fst (run_code {| tempdir := "/var/tmp"; uuid4 := "0a1b2c3d-0000-4000-8000-000000000000";
                     random_name := "zz91_abc"; engine := ContainerExited 0 "hi" "" [] |}
           (request_of "import sys; sys.stdout.write('hi')")
           {| disk := {["/tmp/keep" := ∅]}; containers := []; spawned := [] |}).
Proof.
  apply (answer_depends_on_outcome_only
           (env0 (ContainerExited 0 "hi" "" []))
           (request_of "print('hi', end='')") "print('hi', end='')" world0
           {| tempdir := "/var/tmp"; uuid4 := "0a1b2c3d-0000-4000-8000-000000000000";
              random_name := "zz91_abc"; engine := ContainerExited 0 "hi" "" [] |}
           (request_of "import sys; sys.stdout.write('hi')")
           "import sys; sys.stdout.write('hi')"
           {| disk := {["/tmp/keep" := ∅]}; containers := []; spawned := [] |}).
  - apply accepted_request_of. vm_compute. split; [reflexivity | discriminate].
  - reflexivity.
  - apply accepted_request_of. vm_compute. split; [reflexivity | discriminate].
  - vm_compute. reflexivity.
  - reflexivity.
Defined.

(** X14: what the program did to its workspace never shows in the answer: a
    failing or skipped clean-up changes neither the status nor the body. *)
Theorem cleanup_never_alters_answer env request_json code w rc out err ops ops' :
  accepted request_json code -> fresh env w ->
  engine env = ContainerExited rc out err ops ->
  fst (run_code env request_json w)
  = fst (run_code (with_engine (ContainerExited rc out err ops') env) request_json w).
Proof.
  intros Hacc Hfresh Hev. symmetry.
  apply (run_code_completes_same env _ _ code w rc out err);
    try assumption; try reflexivity.
  - rewrite Hev. simpl. auto.
  - simpl. auto.
Qed.

Lemma cleanup_never_alters_answer_witness :
  let env := env0 (ContainerExited 0 "hi" "" []) in
  fst (run_code env (request_of "print('hi', end='')") world0)
  = fst (run_code
           (with_engine (ContainerExited 0 "hi" ""
                           [HostUnlink "/tmp/exec_3f2b8c1e_k3j9x_qa" "script.py"]) env)
           (request_of "print('hi', end='')") world0).
Proof.
  apply (cleanup_never_alters_answer (env0 (ContainerExited 0 "hi" "" []))
           (request_of "print('hi', end='')") "print('hi', end='')" world0
           0 "hi" "" []
           [HostUnlink "/tmp/exec_3f2b8c1e_k3j9x_qa" "script.py"]).
  - apply accepted_request_of. vm_compute. split; [reflexivity | discriminate].
  - reflexivity.
  - reflexivity.
Defined.

(** ** Length of what is answered *)

Lemma cap_output_bound s : Py.len (cap_output s) <= MAX_OUTPUT + 17.
Proof.
  destruct (Z_lt_le_dec MAX_OUTPUT (Py.len s)) as [Hlong|Hshort].
  - destruct (proj1 (cap_output_capped s) Hlong) as [keep [rest [_ [_ [_ Hlen]]]]].
    rewrite Hlen. vm_compute. discriminate.
  - rewrite (cap_output_short s Hshort). lia.
Qed.

Lemma field_stdout a b c :
  field "stdout" (Returned (jsonify [("stdout", JStr a); ("stderr", JStr b);
                                     ("exit_code", JNum c)] 200)) = Some (JStr a).
Proof. reflexivity. Qed.

Lemma field_stderr a b c :
  field "stderr" (Returned (jsonify [("stdout", JStr a); ("stderr", JStr b);
                                     ("exit_code", JNum c)] 200)) = Some (JStr b).
Proof. reflexivity. Qed.

Lemma respond_stream_bound workdir r w k s :
  k = "stdout" \/ k = "stderr" ->
  field k (fst (respond workdir r w)) = Some (JStr s) ->
  Py.len s <= MAX_OUTPUT + 17.
Proof.
  intros Hk Hf. destruct r as [[| |]|proc]; cbn [respond fst] in Hf.
  - discriminate.
  - discriminate.
  - destruct Hk as [-> | ->]; discriminate.
  - destruct (timed_out _ _); cbn [fst] in Hf.
    + destruct Hk as [-> | ->]; discriminate.
    + destruct Hk as [-> | ->].
      * rewrite field_stdout in Hf. injection Hf as <-. apply cap_output_bound.
      * rewrite field_stderr in Hf. injection Hf as <-. apply cap_output_bound.
Qed.

(** X15: no answer carries a stream longer than the ceiling plus the marker:
    whatever the request and however long the captured output, a [stdout] or
    [stderr] field of the response has at most 10017 characters. *)
Theorem answered_streams_bounded env request_json w k s :
  k = "stdout" \/ k = "stderr" ->
  field k (fst (run_code env request_json w)) = Some (JStr s) ->
  Py.len s <= 10017.
Proof.
  intros Hk Hf. change 10017 with (MAX_OUTPUT + 17).
  destruct (run_code_cases env request_json w) as [[code [_ Hrun]] | [r [Hrun Hr]]].
  - rewrite Hrun in Hf.
    destruct (run_accepted_cases env code w) as [Ht | [_ Hfr]].
    + rewrite Ht in Hf. discriminate.
    + rewrite Hfr in Hf. destruct (subprocess_run _ _ _ _) as [r w'].
      exact (respond_stream_bound _ _ _ _ _ Hk Hf).
  - rewrite Hrun in Hf. cbn [fst] in Hf.
    destruct Hr as [[msg ->] | ->]; destruct Hk as [-> | ->]; discriminate.
Qed.

Lemma answered_streams_bounded_witness :
  Py.len (cap_output long_text) <= 10017.
Proof.
  apply (answered_streams_bounded (env0 (ContainerExited 0 long_text "" []))
           (request_of "print('a' * 10050, end='')") world0 "stdout").
  - left. reflexivity.
  - vm_compute. reflexivity.
Defined.

(** ** Requests one after the other *)

(** X16: a workspace left by a timed-out request is not collected by a later
    one: after a request that runs into the supervisory time-out and a second
    one that completes normally, the first directory is still there with its
    source, and only the second has been removed. *)
Theorem leftover_workspace_persists
    env1 request1 code1 env2 request2 code2 w started rc out err :
  accepted request1 code1 -> accepted request2 code2 ->
  fresh env1 w -> fresh env2 w -> workdir_of env1 <> workdir_of env2 ->
  engine env1 = Hung started [] ->
  engine env2 = ContainerExited rc out err [] -> ~ inner_marker rc err ->
  disk (snd (run_code env2 request2 (snd (run_code env1 request1 w))))
  = <[workdir_of env1 := {["script.py" := code1]}]> (disk w).
Proof.
  intros Hacc1 Hacc2 Hfresh1 Hfresh2 Hne Hev1 Hev2 Hm.
  assert (Hd1 : disk (snd (run_code env1 request1 w))
                = <[workdir_of env1 := {["script.py" := code1]}]> (disk w)).
  { apply timeout_keeps_workspace; try assumption. right. eauto. }
  rewrite <- Hd1.
  apply (normal_completion_cleans_up env2 request2 code2 _ rc out err);
    try assumption.
  unfold fresh. rewrite Hd1, lookup_insert_ne by exact Hne. exact Hfresh2.
Qed.

Lemma leftover_workspace_persists_witness :
  let env1 := env0 (Hung false []) in
  let env2 := {| tempdir := "/tmp"; uuid4 := "0a1b2c3d-0000-4000-8000-000000000000";
                 random_name := "zz91_abc"; engine := ContainerExited 0 "hi" "" [] |} in
  disk (snd (run_code env2 (request_of "print('hi', end='')")
               (snd (run_code env1 (request_of "while True: pass") world0))))
  = <[workdir_of env1 := {["script.py" := "while True: pass"]}]> (disk world0).
Proof.
  apply (leftover_workspace_persists
           (env0 (Hung false [])) (request_of "while True: pass") "while True: pass"
           {| tempdir := "/tmp"; uuid4 := "0a1b2c3d-0000-4000-8000-000000000000";
              random_name := "zz91_abc"; engine := ContainerExited 0 "hi" "" [] |}
           (request_of "print('hi', end='')") "print('hi', end='')"
           world0 false 0 "hi" "").
  - apply accepted_request_of. vm_compute. split; [reflexivity | discriminate].
  - apply accepted_request_of. vm_compute. split; [reflexivity | discriminate].
  - reflexivity.
  - reflexivity.
  - vm_compute. discriminate.
  - reflexivity.
  - reflexivity.
  - exact no_marker_in_empty.
Defined.

(** ** The two mounts *)

Lemma ends_with_cons c a s :
  s <> EmptyString -> Py.ends_with c (String a s) = Py.ends_with c s.
Proof. destruct s; [congruence | reflexivity]. Qed.

Lemma append_nonempty_r s t : t <> EmptyString -> s +:+ t <> EmptyString.
Proof.
  intros Ht. destruct s as [|a s]; [exact Ht|].
  rewrite append_cons. discriminate.
Qed.

Lemma ends_with_append c t : t <> EmptyString ->
  forall s, Py.ends_with c (s +:+ t) = Py.ends_with c t.
Proof.
  intros Ht. induction s as [|a s IH]; [reflexivity|].
  rewrite append_cons, ends_with_cons by now apply append_nonempty_r.
  exact IH.
Qed.

Lemma path_join_relative a b :
  String.prefix "/" b = false ->
  exists dir, Py.path_join a b = dir +:+ b.
Proof.
  intros Hrel. unfold Py.path_join. rewrite Hrel.
  destruct (String.eqb a "" || Py.ends_with "/" a).
  - exists a. reflexivity.
  - exists (a +:+ "/"). now rewrite append_assoc.
Qed.

(** The directory name never ends in a separator, given that the random
    characters do not. *)
Lemma workdir_of_no_trailing_slash env :
  Py.ends_with "/" (random_name env) = false ->
  workdir_of env <> EmptyString /\ Py.ends_with "/" (workdir_of env) = false.
Proof.
  intros Hrand. unfold workdir_of.
  set (run_id := Py.slice_to 8 (uuid4 env)).
  set (name := ("exec_" +:+ run_id +:+ "_") +:+ random_name env).
  assert (Hname : name <> EmptyString) by (unfold name; discriminate).
  assert (Hend : Py.ends_with "/" name = false).
  { unfold name. destruct (random_name env) as [|a r] eqn:Hr.
    - rewrite append_nil_r, <- append_assoc.
      now rewrite ends_with_append by discriminate.
    - rewrite ends_with_append by discriminate. exact Hrand. }
  destruct (path_join_relative (tempdir env) name) as [dir ->]; [reflexivity|].
  split; [now apply append_nonempty_r|].
  now rewrite ends_with_append.
Qed.

(** X17: the source file lies in the directory that is mounted writable.
    The path mounted read-only at [/app/script.py] is the entry [script.py]
    of the directory mounted at [/app/writable]: the two [-v] arguments of
    the command are that directory, once with [/script.py] appended and
    marked [:ro], once as it is. *)
Theorem script_inside_writable_mount env :
  Py.ends_with "/" (random_name env) = false ->
  script_path_of env = workdir_of env +:+ "/script.py"
  /\ exists pre post,
       command_of env
       = pre ++ ["-v"; (workdir_of env +:+ "/script.py") +:+ ":/app/script.py:ro";
                 "-v"; workdir_of env +:+ ":/app/writable"] ++ post.
Proof.
  intros Hrand.
  destruct (workdir_of_no_trailing_slash env Hrand) as [Hne Hend].
  assert (Hpath : script_path_of env = workdir_of env +:+ "/script.py").
  { unfold script_path_of, Py.path_join.
    change (String.prefix "/" "script.py") with false. cbv iota.
    rewrite Hend, orb_false_r.
    destruct (String.eqb_spec (workdir_of env) "") as [He|_]; [contradiction|].
    reflexivity. }
  split; [exact Hpath|].
  rewrite command_of_flags, Hpath.
  eexists [_; _; _; _; _; _; _; _; _; _; _; _], _. reflexivity.
Qed.

Lemma script_inside_writable_mount_witness :
  let env := env0 (ContainerExited 0 "" "" []) in
  script_path_of env = workdir_of env +:+ "/script.py"
  /\ exists pre post,
       command_of env
       = pre ++ ["-v"; (workdir_of env +:+ "/script.py") +:+ ":/app/script.py:ro";
                 "-v"; workdir_of env +:+ ":/app/writable"] ++ post.
Proof.
  apply (script_inside_writable_mount (env0 (ContainerExited 0 "" "" []))).
  reflexivity.
Defined.
